(** * QuicklogicPlatform (nmigen/vendor/quicklogic.py)

    A shallow embedding of the QuickLogic/SymbiFlow vendor platform: the
    oscillator parameter validation and clock-domain synthesis of
    [create_missing_domain], the clock-constraint hooks, the five file
    templates and the seven command templates.

    Python objects that are mutated in place ([Signal.attrs]) live in an
    explicit store; exceptions are the [Raise] branch of [result]; the pieces
    of the base class [TemplatedPlatform] that the vendor class calls but does
    not define are the methods of a type class. *)

From Stdlib Require Import ZArith String Ascii List Bool Floats Lia DecimalString.
From stdpp Require Import base option list gmap strings.
Import ListNotations.
Open Scope Z_scope.

(** ** Python values, exceptions *)

(** The values a platform attribute such as [osc_div] can hold. [bool] is a
    subclass of [int] in Python; [PyObj r s] is any other object (a [str],
    [None], a list, ...) whose [repr()] is [r] and whose [str()] is [s]. *)
Inductive pyval : Type :=
| PyInt (z : Z)
| PyBool (b : bool)
| PyFloat (f : float)
| PyObj (r s : string).

Inductive exn : Type :=
| ValueError (msg : string)
| TypeError (msg : string)
| AttributeError (attr : string)
| UndefinedError (name : string)
| ResourceError (msg : string)
| ZeroDivisionError
| OverflowError.

Inductive result (A : Type) : Type :=
| Ok (a : A)
| Raise (e : exn).
Arguments Ok {A} a.
Arguments Raise {A} e.

Definition is_ok {A} (r : result A) : bool :=
  match r with Ok _ => true | Raise _ => false end.

(** [isinstance(v, int)] *)
Definition isinstance_int (v : pyval) : bool :=
  match v with
  | PyInt _ | PyBool _ => true
  | _ => false
  end.

(** The integer an [int] instance denotes ([True] is 1, [False] is 0). *)
Definition int_of (v : pyval) : Z :=
  match v with
  | PyInt z => z
  | PyBool b => Z.b2z b
  | _ => 0
  end.

Definition Z_repr (z : Z) : string := NilEmpty.string_of_int (Z.to_int z).

(** The runtime's decimal rendering of a float ([repr] and [str] agree on
    floats); it is the interpreter's, not the platform's. *)
Class PyRuntime : Type := { float_repr : float -> string }.

Section Repr.
Context {rt : PyRuntime}.

(** [repr(v)], as [{!r}] formats it. *)
Definition repr (v : pyval) : string :=
  match v with
  | PyInt z => Z_repr z
  | PyBool true => "True"
  | PyBool false => "False"
  | PyFloat f => float_repr f
  | PyObj r _ => r
  end.
End Repr.

(** ** True division *)

Definition float_of_Z (z : Z) : float := SF2Prim (binary_normalize prec emax z 0 false).

(** [float(v)] for a number; an [int] too large for a double overflows. *)
Definition to_float (v : pyval) : result float :=
  match v with
  | PyFloat f => Ok f
  | PyInt _ | PyBool _ =>
      let f := float_of_Z (int_of v) in
      if PrimFloat.is_infinity f then Raise OverflowError else Ok f
  | PyObj _ _ => Raise (TypeError "unsupported operand type(s) for /")
  end.

(** [a / b] on two [int]s: the quotient rounded once to the nearest double.
    The scaled quotient keeps at least 64 significant bits and a sticky bit. *)
Definition int_truediv (a b : Z) : result float :=
  if b =? 0 then Raise ZeroDivisionError
  else
    let neg := xorb (a <? 0) (b <? 0) in
    let a' := Z.abs a in
    let b' := Z.abs b in
    let k := Z.max 0 (Z.log2 b' + 66 - Z.log2 a') in
    let n := a' * 2 ^ k in
    let m := 2 * (n / b') + (if n mod b' =? 0 then 0 else 1) in
    let f := SF2Prim (binary_normalize prec emax (if neg then - m else m) (- k - 1) neg) in
    if PrimFloat.is_infinity f then Raise OverflowError else Ok f.

(** [a / b] *)
Definition py_truediv (a b : pyval) : result float :=
  if isinstance_int a && isinstance_int b then int_truediv (int_of a) (int_of b)
  else
    match to_float a with
    | Raise e => Raise e
    | Ok x =>
        match to_float b with
        | Raise e => Raise e
        | Ok y =>
            if PrimFloat.eqb y 0%float then Raise ZeroDivisionError
            else Ok (PrimFloat.div x y)
        end
    end.

(** ** The hardware description objects the platform builds *)

(** A [Signal] object: its identity and its name. Its mutable [attrs]
    dictionary lives in the store, keyed by the identity. *)
Record Signal : Type := { sig_id : nat; sig_name : string }.

Inductive Value : Type :=
| Const (z : Z)
| SignalRef (s : Signal)
| ClockSignal (domain : string)
| ResetSignal (domain : string).

(** [Instance(type, **kwargs)], keyword names kept as written. *)
Record Instance : Type := { inst_type : string; inst_kwargs : list (string * Value) }.

Inductive Submodule : Type :=
| SubInstance (i : Instance)
| ResetSynchronizer (arst : Value) (domain : string).

Record ClockDomain : Type := { cd_name : string }.

(** [lhs.eq(rhs)] *)
Inductive Statement : Type := Assign (lhs rhs : Value).

(** A [Module()] under construction: [m.submodules], [m.domains], [m.d.comb]. *)
Record Module : Type := {
  submodules : list (option string * Submodule);
  domains : list ClockDomain;
  comb : list Statement
}.

Definition empty_Module : Module := {| submodules := []; domains := []; comb := [] |}.

(** [m.submodules += sub] *)
Definition add_submodule (sub : Submodule) (m : Module) : Module :=
  {| submodules := submodules m ++ [(None, sub)]; domains := domains m; comb := comb m |}.

(** [m.submodules.<name> = sub] *)
Definition set_submodule (name : string) (sub : Submodule) (m : Module) : Module :=
  {| submodules := submodules m ++ [(Some name, sub)]; domains := domains m; comb := comb m |}.

(** [m.domains += cd] *)
Definition add_domain (cd : ClockDomain) (m : Module) : Module :=
  {| submodules := submodules m; domains := domains m ++ [cd]; comb := comb m |}.

(** [m.d.comb += stmt] *)
Definition add_comb (stmt : Statement) (m : Module) : Module :=
  {| submodules := submodules m; domains := domains m; comb := comb m ++ [stmt] |}.

(** [Clock(frequency)] of the build DSL. *)
Record Clock : Type := { frequency : float }.

(** What [platform.request(name)] hands back; [pin_i] is the [.i] attribute,
    absent on an output-only pin. *)
Record Pin : Type := { pin_name : string; pin_i : option Signal }.

(** ** Ordered dictionaries ([Signal.attrs], resource attributes) *)

Definition odict : Type := list (string * string).

Fixpoint od_get (k : string) (d : odict) : option string :=
  match d with
  | [] => None
  | (k', v) :: d' => if String.eqb k k' then Some v else od_get k d'
  end.

(** [d[k] = v]: an existing key keeps its position, a new one goes last. *)
Fixpoint od_set (k v : string) (d : odict) : odict :=
  match d with
  | [] => [(k, v)]
  | (k', v') :: d' => if String.eqb k k' then (k, v) :: d' else (k', v') :: od_set k v d'
  end.

(** ** Platform attributes and mutable state *)

(** The class attributes of a concrete board. [None] for [osc_freq] or
    [osc_div] means the attribute does not exist ([hasattr] is false); [None]
    for [default_clk] or [default_rst] is Python's [None]. *)
Record Platform : Type := {
  device : string;
  package : string;
  default_clk : option string;
  default_rst : option string;
  osc_freq : option pyval;
  osc_div : option pyval
}.

(** The same board with other oscillator parameters. *)
Definition with_osc (freq div : option pyval) (p : Platform) : Platform :=
  {| device := device p; package := package p;
     default_clk := default_clk p; default_rst := default_rst p;
     osc_freq := freq; osc_div := div |}.

(** The mutable part: the attribute dictionaries of the signals created so
    far, the clock constraints and the resources already requested. *)
Record pstate : Type := {
  next_id : nat;
  attrs_store : gmap nat odict;
  clocks : list (Signal * float);
  requested : list string
}.

Definition init_state : pstate :=
  {| next_id := 0; attrs_store := ∅; clocks := []; requested := [] |}.

(** [s.attrs] *)
Definition attrs_of (st : pstate) (s : Signal) : odict :=
  default [] (attrs_store st !! sig_id s).

(** ** State and exception monad *)

Definition M (A : Type) : Type := pstate -> result (A * pstate).

Definition ret {A} (a : A) : M A := fun st => Ok (a, st).

Definition bind {A B} (c : M A) (k : A -> M B) : M B :=
  fun st =>
    match c st with
    | Ok (a, st') => k a st'
    | Raise e => Raise e
    end.

Definition raise {A} (e : exn) : M A := fun _ => Raise e.

Definition lift {A} (r : result A) : M A :=
  fun st => match r with Ok a => Ok (a, st) | Raise e => Raise e end.

Declare Scope py_scope.
Delimit Scope py_scope with py.
Notation "x <- c ;; k" := (bind c (fun x => k))
  (at level 100, c at next level, right associativity) : py_scope.
Notation "c ;;; k" := (bind c (fun _ => k))
  (at level 100, right associativity) : py_scope.
Open Scope py_scope.

(** [Signal()]: a fresh object with an empty [attrs]; the name is the one the
    tracer picks up from the assignment target. *)
Definition new_Signal (name : string) : M Signal :=
  fun st =>
    let s := {| sig_id := next_id st; sig_name := name |} in
    Ok (s, {| next_id := S (next_id st);
              attrs_store := <[next_id st := []]> (attrs_store st);
              clocks := clocks st;
              requested := requested st |}).

(** [s.attrs[k] = v] *)
Definition set_attr (s : Signal) (k v : string) : M unit :=
  fun st =>
    Ok (tt, {| next_id := next_id st;
               attrs_store := <[sig_id s := od_set k v (attrs_of st s)]> (attrs_store st);
               clocks := clocks st;
               requested := requested st |}).

(** [pin.i] *)
Definition get_i (p : Pin) : M Signal :=
  match pin_i p with
  | Some s => ret s
  | None => raise (AttributeError "i")
  end.

(** [self.<attr>] for an attribute that may be missing. *)
Definition getattr {A} (attr : string) (o : option A) : result A :=
  match o with
  | Some v => Ok v
  | None => Raise (AttributeError attr)
  end.

(** ** The base class *)

(** What [QuicklogicPlatform] inherits from [TemplatedPlatform] and uses:
    resource requests, the two overridden clock hooks ([super()]), the Jinja
    filters and [invoke_tool]. *)
Class TemplatedPlatform : Type := {
  request : string -> M Pin;
  super_default_clk_constraint : Platform -> result (option Clock);
  super_add_clock_constraint : Signal -> pyval -> M unit;
  tcl_escape : string -> string;
  ascii_escape : string -> string;
  invoke_tool : string -> string
}.

(** ** QuicklogicPlatform: common logic *)

Section QuicklogicPlatform.
Context {rt : PyRuntime} {base : TemplatedPlatform}.

Definition osc_div_msg : string :=
  "OSC divider (osc_div) must be an integer between 2 and 512".

Definition osc_freq_msg : string :=
  "OSC frequency (osc_freq) must be an integer between 2100000 and 80000000".

(** [default_clk_constraint] (a property) *)
Definition default_clk_constraint (self : Platform) : result (option Clock) :=
  if bool_decide (default_clk self = Some "sys_clk0") then
    match getattr "osc_freq" (osc_freq self) with
    | Raise e => Raise e
    | Ok f =>
        match getattr "osc_div" (osc_div self) with
        | Raise e => Raise e
        | Ok d =>
            match py_truediv f d with
            | Raise e => Raise e
            | Ok q => Ok (Some {| frequency := q |})
            end
        end
    end
  else super_default_clk_constraint self.

(** [add_clock_constraint(clock, frequency)] *)
Definition add_clock_constraint (clock : Signal) (frequency : pyval) : M unit :=
  super_add_clock_constraint clock frequency ;;;
  set_attr clock "keep" "TRUE".

(** [create_missing_domain(name)]; [None] is the implicit [return None]. *)
Definition create_missing_domain (self : Platform) (name : string) : M (option Module) :=
  match String.eqb name "sync", default_clk self with
  | true, Some clk =>
      let m := empty_Module in
      mc <- (if String.eqb clk "sys_clk0" then
               match osc_div self with
               | None => raise (ValueError osc_div_msg)
               | Some div =>
                   if negb (isinstance_int div) || (int_of div <? 2) || (int_of div >? 512)
                   then raise (ValueError (osc_div_msg +:+ ", not " +:+ repr div))
                   else
                     match osc_freq self with
                     | None => raise (ValueError osc_freq_msg)
                     | Some freq =>
                         if negb (isinstance_int freq) || (int_of freq <? 2100000)
                            || (int_of freq >? 80000000)
                         then raise (ValueError (osc_freq_msg +:+ ", not " +:+ repr freq))
                         else
                           clk_i <- new_Signal "clk_i" ;;
                           sys_clk0 <- new_Signal "sys_clk0" ;;
                           let m := add_submodule
                                      (SubInstance
                                         {| inst_type := "qlal4s3b_cell_macro";
                                            inst_kwargs := [("o_Sys_Clk0", SignalRef sys_clk0)] |})
                                      m in
                           let m := add_submodule
                                      (SubInstance
                                         {| inst_type := "gclkbuff";
                                            inst_kwargs := [("o_A", SignalRef sys_clk0);
                                                            ("o_Z", SignalRef clk_i)] |})
                                      m in
                           ret (m, clk_i)
                     end
               end
             else
               pin <- request clk ;;
               clk_i <- get_i pin ;;
               ret (m, clk_i)) ;;
      let m := fst mc in
      let clk_i := snd mc in
      rst_i <- match default_rst self with
               | Some rst =>
                   pin <- request rst ;;
                   i <- get_i pin ;;
                   ret (SignalRef i)
               | None => ret (Const 0)
               end ;;
      let m := add_domain {| cd_name := "sync" |} m in
      let m := add_comb (Assign (ClockSignal "sync") (SignalRef clk_i)) m in
      let m := set_submodule "reset_sync" (ResetSynchronizer rst_i "sync") m in
      ret (Some m)
  | _, _ => ret None
  end.

End QuicklogicPlatform.

(** ** Templates *)

(** What a template sees when it is rendered: the design name, the banner,
    the netlist emitters, the constraint iterators of the platform, the
    overrides and the platform itself. *)
Record RenderCtx : Type := {
  name : string;
  autogenerated : string;
  emit_verilog : string;
  emit_debug_verilog : string;
  iter_port_constraints_bits : list (string * string * odict);
  iter_clock_constraints : list (Signal * option Signal * float);
  get_override : string -> option string;
  iter_files : list string -> list string;
  platform : Platform
}.

Definition nl : string := String (ascii_of_nat 10) EmptyString.

(** A [{% for %}] loop whose body may raise: the bodies' outputs in order,
    cut short by the first exception. *)
Fixpoint for_each {A} (body : A -> result string) (xs : list A) : result string :=
  match xs with
  | [] => Ok ""
  | x :: xs' =>
      match body x with
      | Raise e => Raise e
      | Ok s =>
          match for_each body xs' with
          | Raise e => Raise e
          | Ok rest => Ok (s +:+ rest)
          end
      end
  end.

(** [str(v)], as [{{ v }}] prints it. *)
Definition str {rt : PyRuntime} (v : pyval) : string :=
  match v with
  | PyObj _ s => s
  | _ => repr v
  end.

(** Layout follows the base class's rendering (the source is dedented and
    stripped, block tags take their own line away) and the [-%}] markers,
    which eat the white space up to the loop body: every iteration prints
    exactly the line of its body. *)
Section FileTemplates.
Context {rt : PyRuntime} {base : TemplatedPlatform}.

(** ["{{name}}.v"] *)
Definition tpl_v (ctx : RenderCtx) : result string :=
  Ok ("/* " +:+ autogenerated ctx +:+ " */" +:+ nl +:+ emit_verilog ctx).

(** ["{{name}}.debug.v"] *)
Definition tpl_debug_v (ctx : RenderCtx) : result string :=
  Ok ("/* " +:+ autogenerated ctx +:+ " */" +:+ nl +:+ emit_debug_verilog ctx).

Definition pcf_line (c : string * string * odict) : result string :=
  let '(port_name, pin_name, attrs) := c in
  Ok ("set_io " +:+ port_name +:+ " " +:+ pin_name +:+ nl).

(** ["{{name}}.pcf"] *)
Definition tpl_pcf (ctx : RenderCtx) : result string :=
  match for_each pcf_line (iter_port_constraints_bits ctx) with
  | Raise e => Raise e
  | Ok body => Ok ("# " +:+ autogenerated ctx +:+ nl +:+ body)
  end.

Definition xdc_line (port_name : string) (a : string * string) : result string :=
  let '(attr_name, attr_value) := a in
  Ok ("set_property " +:+ attr_name +:+ " " +:+ attr_value
      +:+ " [get_ports " +:+ tcl_escape port_name +:+ " }]" +:+ nl).

Definition xdc_port (c : string * string * odict) : result string :=
  let '(port_name, pin_name, attrs) := c in
  for_each (xdc_line port_name) attrs.

(** ["{{name}}.xdc"] *)
Definition tpl_xdc (ctx : RenderCtx) : result string :=
  match for_each xdc_port (iter_port_constraints_bits ctx) with
  | Raise e => Raise e
  | Ok body =>
      Ok ("# " +:+ autogenerated ctx +:+ nl +:+ body
          +:+ default "# (add_constraints placeholder)" (get_override ctx "add_constraints"))
  end.

Definition sdc_clock (c : Signal * option Signal * float) : result string :=
  let '(net_signal, port_signal, frequency) := c in
  match port_signal with
  | Some port =>
      match py_truediv (PyInt 100000000) (PyFloat frequency) with
      | Raise e => Raise e
      | Ok period =>
          Ok ("create_clock -period " +:+ str (PyFloat period) +:+ " "
              +:+ ascii_escape (sig_name port) +:+ nl)
      end
  | None => Ok ""
  end.

(** ["{{name}}.sdc"] *)
Definition tpl_sdc (ctx : RenderCtx) : result string :=
  match for_each sdc_clock (iter_clock_constraints ctx) with
  | Raise e => Raise e
  | Ok body => Ok ("# " +:+ autogenerated ctx +:+ nl +:+ body)
  end.

(** [file_templates], without the inherited build scripts: the file name
    is [{{name}}] followed by the suffix. *)
Definition file_templates : list (string * (RenderCtx -> result string)) :=
  [ (".v", tpl_v);
    (".debug.v", tpl_debug_v);
    (".pcf", tpl_pcf);
    (".xdc", tpl_xdc);
    (".sdc", tpl_sdc) ].

(** The text of every generated file, by file name. *)
Definition render_files (ctx : RenderCtx) : list (string * result string) :=
  map (fun t => (name ctx +:+ fst t, snd t ctx)) file_templates.

End FileTemplates.

(** *** Command templates *)

(** The expressions a command template substitutes. *)
Inductive cexpr : Type :=
| CName
| CDevice
| CPackage
| COscFreq
| COscDiv
| CInvokeTool (tool : string).

Inductive atom : Type :=
| Lit (s : string)
| Subst (e : cexpr).

(** A command is a sequence of words; [ForFiles] is the loop over
    [platform.iter_files(...)] that prints one word per file. *)
Inductive word : Type :=
| Word (atoms : list atom)
| ForFiles (suffixes : list string).

Definition command_template : Type := list word.

Definition flag (f : string) : word := Word [Lit f].
Definition artifact (suffix : string) : word := Word [Subst CName; Lit suffix].

Definition required_tools : list string :=
  [ "symbiflow_synth"; "symbiflow_pack"; "symbiflow_place"; "symbiflow_route";
    "symbiflow_write_fasm"; "symbiflow_write_bitstream"; "symbiflow_write_openocd" ].

Definition command_templates : list command_template :=
  [ [ Word [Subst (CInvokeTool "symbiflow_synth")];
      flag "-t"; Word [Subst CName];
      flag "-v"; ForFiles [".v"; ".sv"; ".vhd"; ".vhdl"]; artifact ".v";
      flag "-d"; Word [Subst CDevice];
      flag "-p"; artifact ".pcf";
      flag "-P"; Word [Subst CPackage];
      flag "-x"; artifact ".xdc" ];
    [ Word [Subst (CInvokeTool "symbiflow_pack")];
      flag "-e"; artifact ".eblif";
      flag "-d"; Word [Subst CDevice];
      flag "-s"; artifact ".sdc" ];
    [ Word [Subst (CInvokeTool "symbiflow_place")];
      flag "-e"; artifact ".eblif";
      flag "-d"; Word [Subst CDevice];
      flag "-p"; artifact ".pcf";
      flag "-n"; artifact ".net";
      flag "-P"; Word [Subst CPackage];
      flag "-s"; artifact ".sdc" ];
    [ Word [Subst (CInvokeTool "symbiflow_route")];
      flag "-e"; artifact ".eblif";
      flag "-d"; Word [Subst CDevice];
      flag "-s"; artifact ".sdc" ];
    [ Word [Subst (CInvokeTool "symbiflow_write_fasm")];
      flag "-e"; artifact ".eblif";
      flag "-d"; Word [Subst CDevice];
      flag "-s"; artifact ".sdc" ];
    [ Word [Subst (CInvokeTool "symbiflow_write_bitstream")];
      flag "-f"; artifact ".fasm";
      flag "-d"; Word [Subst CDevice];
      flag "-P"; Word [Subst CPackage];
      flag "-b"; artifact ".bit" ];
    [ flag "python3"; flag "-m"; flag "quicklogic_fasm.bitstream_to_openocd";
      artifact ".bit";
      artifact ".openocd";
      flag "--osc-freq"; Word [Subst COscFreq];
      flag "--fpga-clk-divider"; Word [Subst COscDiv] ] ].

Section CommandTemplates.
Context {rt : PyRuntime} {base : TemplatedPlatform}.

(** [{{ e }}]. An attribute the platform does not have is an undefined
    value, and printing one is an error (the base class renders its templates
    in a strict environment). *)
Definition eval_cexpr (ctx : RenderCtx) (e : cexpr) : result string :=
  match e with
  | CName => Ok (name ctx)
  | CDevice => Ok (device (platform ctx))
  | CPackage => Ok (package (platform ctx))
  | COscFreq =>
      match osc_freq (platform ctx) with
      | Some v => Ok (str v)
      | None => Raise (UndefinedError "osc_freq")
      end
  | COscDiv =>
      match osc_div (platform ctx) with
      | Some v => Ok (str v)
      | None => Raise (UndefinedError "osc_div")
      end
  | CInvokeTool tool => Ok (invoke_tool tool)
  end.

Definition render_atom (ctx : RenderCtx) (a : atom) : result string :=
  match a with
  | Lit s => Ok s
  | Subst e => eval_cexpr ctx e
  end.

Definition render_word (ctx : RenderCtx) (w : word) : result (list string) :=
  match w with
  | Word atoms =>
      match for_each (render_atom ctx) atoms with
      | Raise e => Raise e
      | Ok s => Ok [s]
      end
  | ForFiles suffixes => Ok (iter_files ctx suffixes)
  end.

(** A rendered command, as its words. *)
Fixpoint render_command (ctx : RenderCtx) (tpl : command_template) : result (list string) :=
  match tpl with
  | [] => Ok []
  | w :: tpl' =>
      match render_word ctx w with
      | Raise e => Raise e
      | Ok ws =>
          match render_command ctx tpl' with
          | Raise e => Raise e
          | Ok rest => Ok (ws ++ rest)
          end
      end
  end.

End CommandTemplates.

(** Whether a word, a template, mentions the expression [e]. *)
Definition cexpr_eqb (a b : cexpr) : bool :=
  match a, b with
  | CName, CName | CDevice, CDevice | CPackage, CPackage
  | COscFreq, COscFreq | COscDiv, COscDiv => true
  | CInvokeTool s, CInvokeTool t => String.eqb s t
  | _, _ => false
  end.

Definition atom_mentions (e : cexpr) (a : atom) : bool :=
  match a with
  | Lit _ => false
  | Subst e' => cexpr_eqb e e'
  end.

Definition word_mentions (e : cexpr) (w : word) : bool :=
  match w with
  | Word atoms => existsb (atom_mentions e) atoms
  | ForFiles _ => false
  end.

Definition mentions (e : cexpr) (tpl : command_template) : bool :=
  existsb (word_mentions e) tpl.

(** The tool a command is invoked through, when it goes through
    [invoke_tool] at all. *)
Definition invoked_tool (tpl : command_template) : option string :=
  match tpl with
  | Word [Subst (CInvokeTool t)] :: _ => Some t
  | _ => None
  end.

(** ** A board and a runtime to evaluate the platform on *)

Module Demo.

(** A stand-in for the interpreter's float printing: a float with an
    integral value prints as its digits followed by [.0]; any other finite
    float as mantissa and binary exponent. *)
Definition demo_float_repr (f : float) : string :=
  match Prim2SF f with
  | S754_zero s => if s then "-0.0" else "0.0"
  | S754_infinity s => if s then "-inf" else "inf"
  | S754_nan => "nan"
  | S754_finite s m e =>
      let sign := if s then "-" else "" in
      if 0 <=? e then sign +:+ Z_repr (Z.pos m * 2 ^ e) +:+ ".0"
      else if Z.pos m mod 2 ^ (- e) =? 0 then sign +:+ Z_repr (Z.pos m / 2 ^ (- e)) +:+ ".0"
      else sign +:+ Z_repr (Z.pos m) +:+ "p" +:+ Z_repr e
  end.

Definition demo_runtime : PyRuntime := {| float_repr := demo_float_repr |}.

(** The base [add_clock_constraint]: one constraint per signal. *)
Definition demo_super_add_clock_constraint (clock : Signal) (freq : pyval) : M unit :=
  fun st =>
    match to_float freq with
    | Raise e => Raise e
    | Ok f =>
        if existsb (fun c => Nat.eqb (sig_id (fst c)) (sig_id clock)) (clocks st)
        then Raise (ValueError "Cannot add clock constraint: already constrained")
        else Ok (tt, {| next_id := next_id st;
                        attrs_store := attrs_store st;
                        clocks := clocks st ++ [(clock, f)];
                        requested := requested st |})
    end.

(** A board with a 12 MHz clock pin [clk12], a reset button [rst] and an
    output-only [led]. Requesting the clock pin constrains it, through the
    vendor's [add_clock_constraint]. *)
Definition demo_request (n : string) : M Pin :=
  fun st =>
    if existsb (String.eqb n) (requested st)
    then Raise (ResourceError "resource has already been requested")
    else
      let st := {| next_id := next_id st;
                   attrs_store := attrs_store st;
                   clocks := clocks st;
                   requested := requested st ++ [n] |} in
      if String.eqb n "led" then Ok ({| pin_name := n; pin_i := None |}, st)
      else if String.eqb n "rst" then
        (i <- new_Signal "rst__i" ;; ret {| pin_name := n; pin_i := Some i |}) st
      else if String.eqb n "clk12" then
        (i <- new_Signal "clk12__i" ;;
         demo_super_add_clock_constraint i (PyFloat 12000000%float) ;;;
         set_attr i "keep" "TRUE" ;;;
         ret {| pin_name := n; pin_i := Some i |}) st
      else Raise (ResourceError "resource does not exist").

Definition demo_super_default_clk_constraint (self : Platform) : result (option Clock) :=
  match default_clk self with
  | None => Raise (AttributeError "default_clk")
  | Some clk =>
      if String.eqb clk "clk12" then Ok (Some {| frequency := 12000000%float |})
      else Raise (ResourceError "resource does not exist")
  end.

Definition demo_base : TemplatedPlatform := {|
  request := demo_request;
  super_default_clk_constraint := demo_super_default_clk_constraint;
  super_add_clock_constraint := demo_super_add_clock_constraint;
  tcl_escape := fun s => "{" +:+ s +:+ "}";
  ascii_escape := fun s => s;
  invoke_tool := fun tool => tool
|}.

(** The internal oscillator at 60 MHz, divided by 12. *)
Definition quickfeather : Platform :=
  {| device := "ql-eos-s3_wlcsp"; package := "PU64";
     default_clk := Some "sys_clk0"; default_rst := None;
     osc_freq := Some (PyInt 60000000); osc_div := Some (PyInt 12) |}.

Definition osc (freq div : Z) : Platform :=
  with_osc (Some (PyInt freq)) (Some (PyInt div)) quickfeather.

(** The same device clocked from the external pin, with no oscillator
    parameters. *)
Definition pin_clocked : Platform :=
  {| device := "ql-eos-s3_wlcsp"; package := "PU64";
     default_clk := Some "clk12"; default_rst := Some "rst";
     osc_freq := None; osc_div := None |}.

Definition clk12_port : Signal := {| sig_id := 7; sig_name := "clk12" |}.
Definition clk12_net : Signal := {| sig_id := 8; sig_name := "clk12__i" |}.
Definition osc_net : Signal := {| sig_id := 9; sig_name := "clk_i" |}.

Definition demo_ctx (p : Platform) : RenderCtx :=
  {| name := "top";
     autogenerated := "Automatically generated by nMigen. Do not edit.";
     emit_verilog := "module top(); endmodule";
     emit_debug_verilog := "module top(); endmodule";
     iter_port_constraints_bits :=
       [ ("clk12", "63", [("IO_STANDARD", "LVCMOS33")]);
         ("led", "38", [("IO_STANDARD", "LVCMOS33"); ("DRIVE", "4")]) ];
     iter_clock_constraints :=
       [ (clk12_net, Some clk12_port, 100000000%float);
         (osc_net, None, 5000000%float) ];
     get_override := fun _ => None;
     iter_files := fun _ => [];
     platform := p |}.

End Demo.

(** ** The parameter ranges, as the platform documents them *)

(** An attribute that exists, holds an [int] and lies in [lo, hi]. *)
Definition valid_int_param (lo hi : Z) (o : option pyval) : bool :=
  match o with
  | Some v => isinstance_int v && (lo <=? int_of v) && (int_of v <=? hi)
  | None => false
  end.

Definition valid_osc_div : option pyval -> bool := valid_int_param 2 512.
Definition valid_osc_freq : option pyval -> bool := valid_int_param 2100000 80000000.

(** The configuration error for a parameter: the range message, followed by
    the offending value when there is one. *)
Definition config_error {rt : PyRuntime} (msg : string) (o : option pyval) : exn :=
  match o with
  | None => ValueError msg
  | Some v => ValueError (msg +:+ ", not " +:+ repr v)
  end.

(** ** Domain synthesis, as the platform documents it *)

(** The internal oscillator: the oscillator core drives [sys_clk0], the clock
    buffer drives [clk_i] from it. *)
Definition oscillator_chain (sys_clk0 clk_i : Signal) : list (option string * Submodule) :=
  [ (None, SubInstance {| inst_type := "qlal4s3b_cell_macro";
                          inst_kwargs := [("o_Sys_Clk0", SignalRef sys_clk0)] |});
    (None, SubInstance {| inst_type := "gclkbuff";
                          inst_kwargs := [("o_A", SignalRef sys_clk0);
                                          ("o_Z", SignalRef clk_i)] |}) ].

(** The module of the [sync] domain: the clock source's submodules, one
    domain, its clock driven from [clk_i], and the reset synchronizer. *)
Definition sync_module (chain : list (option string * Submodule))
    (clk_i : Signal) (rst_i : Value) : Module :=
  {| submodules := chain ++ [(Some "reset_sync", ResetSynchronizer rst_i "sync")];
     domains := [{| cd_name := "sync" |}];
     comb := [Assign (ClockSignal "sync") (SignalRef clk_i)] |}.

Section DomainSources.
Context {base : TemplatedPlatform}.

(** The derived clock net: from the validated internal oscillator, two fresh
    signals and the two-instance chain; otherwise the input of the requested
    pin and no submodule. *)
Inductive clock_source (self : Platform) (clk : string) (st : pstate) :
    list (option string * Submodule) -> Signal -> pstate -> Prop :=
| clock_from_oscillator clk_i sys_clk0 st1 st2 :
    clk = "sys_clk0" ->
    valid_osc_div (osc_div self) = true ->
    valid_osc_freq (osc_freq self) = true ->
    new_Signal "clk_i" st = Ok (clk_i, st1) ->
    new_Signal "sys_clk0" st1 = Ok (sys_clk0, st2) ->
    clock_source self clk st (oscillator_chain sys_clk0 clk_i) clk_i st2
| clock_from_pin pin clk_i st1 :
    clk <> "sys_clk0" ->
    request clk st = Ok (pin, st1) ->
    pin_i pin = Some clk_i ->
    clock_source self clk st [] clk_i st1.

(** The derived reset: the input of the requested reset pin, or constant 0. *)
Inductive reset_source (self : Platform) (st : pstate) : Value -> pstate -> Prop :=
| reset_from_pin rst pin rst_i st1 :
    default_rst self = Some rst ->
    request rst st = Ok (pin, st1) ->
    pin_i pin = Some rst_i ->
    reset_source self st (SignalRef rst_i) st1
| reset_deasserted :
    default_rst self = None ->
    reset_source self st (Const 0) st.

End DomainSources.

(** ** The generated text, line by line *)

Definition join (ls : list string) : string := fold_right String.append "" ls.

(** The same rendering context on another platform object. *)
Definition with_platform (ctx : RenderCtx) (p : Platform) : RenderCtx :=
  {| name := name ctx;
     autogenerated := autogenerated ctx;
     emit_verilog := emit_verilog ctx;
     emit_debug_verilog := emit_debug_verilog ctx;
     iter_port_constraints_bits := iter_port_constraints_bits ctx;
     iter_clock_constraints := iter_clock_constraints ctx;
     get_override := get_override ctx;
     iter_files := iter_files ctx;
     platform := p |}.

(** The same rendering context with other clock constraints. *)
Definition with_clocks (ctx : RenderCtx) (cs : list (Signal * option Signal * float)) :
    RenderCtx :=
  {| name := name ctx;
     autogenerated := autogenerated ctx;
     emit_verilog := emit_verilog ctx;
     emit_debug_verilog := emit_debug_verilog ctx;
     iter_port_constraints_bits := iter_port_constraints_bits ctx;
     iter_clock_constraints := cs;
     get_override := get_override ctx;
     iter_files := iter_files ctx;
     platform := platform ctx |}.

Section GeneratedLines.
Context {rt : PyRuntime} {base : TemplatedPlatform}.

(** The timing constraint of a clock of [frequency] Hz on [port]: the period
    is 10^8 / frequency. *)
Definition create_clock_line (port : Signal) (frequency : float) : string :=
  "create_clock -period " +:+ float_repr (PrimFloat.div 100000000%float frequency)
  +:+ " " +:+ ascii_escape (sig_name port) +:+ nl.

(** One line per clock constraint with a port, none for the others. *)
Definition sdc_lines (cs : list (Signal * option Signal * float)) : list string :=
  flat_map (fun c : Signal * option Signal * float =>
              match c with
              | (_, Some port, frequency) => [create_clock_line port frequency]
              | (_, None, _) => []
              end) cs.

Definition has_port (c : Signal * option Signal * float) : bool :=
  match c with
  | (_, Some _, _) => true
  | (_, None, _) => false
  end.

(** The property line of one attribute of a port. *)
Definition set_property_line (port_name : string) (a : string * string) : string :=
  "set_property " +:+ fst a +:+ " " +:+ snd a
  +:+ " [get_ports " +:+ tcl_escape port_name +:+ " }]" +:+ nl.

Definition xdc_lines (ps : list (string * string * odict)) : list string :=
  flat_map (fun p : string * string * odict =>
              match p with
              | (port_name, _, attrs) => map (set_property_line port_name) attrs
              end) ps.

End GeneratedLines.

(** ** More of the generated text, and more boards *)

(** The pin binding of one port constraint. *)
Definition set_io_line (c : string * string * odict) : string :=
  "set_io " +:+ fst (fst c) +:+ " " +:+ snd (fst c) +:+ nl.

(** A clock constraint whose period cannot be computed: it has a port and
    its frequency compares equal to zero. *)
Definition zero_clock (c : Signal * option Signal * float) : bool :=
  has_port c && PrimFloat.eqb (snd c) 0%float.

(** The board of [Demo] with another default clock and reset. *)
Definition clocked_from (clk rst : option string) : Platform :=
  {| device := device Demo.pin_clocked; package := package Demo.pin_clocked;
     default_clk := clk; default_rst := rst;
     osc_freq := None; osc_div := None |}.

(** The same rendering context with other port constraints. *)
Definition with_ports (ctx : RenderCtx) (ps : list (string * string * odict)) : RenderCtx :=
  {| name := name ctx;
     autogenerated := autogenerated ctx;
     emit_verilog := emit_verilog ctx;
     emit_debug_verilog := emit_debug_verilog ctx;
     iter_port_constraints_bits := ps;
     iter_clock_constraints := iter_clock_constraints ctx;
     get_override := get_override ctx;
     iter_files := iter_files ctx;
     platform := platform ctx |}.

(** * Properties *)

(** True division on the values the platform meets. *)
Example int_truediv_exact : int_truediv 60000000 12 = Ok 5000000%float.
Proof. vm_compute. reflexivity. Qed.

Example int_truediv_rounded : int_truediv 1 3 = Ok (PrimFloat.div 1 3).
Proof. vm_compute. reflexivity. Qed.

Example int_truediv_by_zero : int_truediv 60000000 0 = Raise ZeroDivisionError.
Proof. reflexivity. Qed.

Section Validation.
Context {rt : PyRuntime} {base : TemplatedPlatform}.

Lemma valid_int_param_check lo hi v :
  valid_int_param lo hi (Some v) =
  negb (negb (isinstance_int v) || (int_of v <? lo) || (int_of v >? hi)).
Proof.
  unfold valid_int_param.
  rewrite !negb_orb, negb_involutive, Z.gtb_ltb, <- Z.leb_antisym, <- Z.leb_antisym.
  reflexivity.
Qed.

(** C1. With the internal oscillator selected, [create_missing_domain("sync")]
    raises the configuration error of [osc_div] (its name, its range 2..512,
    its value) whenever [osc_div] is missing, not an [int] or out of range;
    with a good divider it raises the error of [osc_freq] (range
    2100000..80000000) whenever [osc_freq] is missing, not an [int] or out of
    range; a bad [osc_freq] always ends in one of these two errors; and with
    both in range (and no reset pin to request) a module is returned. *)
Theorem create_missing_domain_osc_validation (self : Platform) (st : pstate) :
  default_clk self = Some "sys_clk0" ->
  (valid_osc_div (osc_div self) = false ->
   create_missing_domain self "sync" st = Raise (config_error osc_div_msg (osc_div self)))
  /\ (valid_osc_div (osc_div self) = true ->
      valid_osc_freq (osc_freq self) = false ->
      create_missing_domain self "sync" st = Raise (config_error osc_freq_msg (osc_freq self)))
  /\ (valid_osc_freq (osc_freq self) = false ->
      create_missing_domain self "sync" st = Raise (config_error osc_div_msg (osc_div self))
      \/ create_missing_domain self "sync" st
         = Raise (config_error osc_freq_msg (osc_freq self)))
  /\ (valid_osc_div (osc_div self) = true ->
      valid_osc_freq (osc_freq self) = true ->
      default_rst self = None ->
      exists m st', create_missing_domain self "sync" st = Ok (Some m, st')).
Proof.
  intros Hclk.
  unfold create_missing_domain, valid_osc_div, valid_osc_freq.
  rewrite Hclk. cbn [String.eqb Ascii.eqb Bool.eqb].
  unfold bind at 1.
  destruct (osc_div self) as [div|] eqn:Hdiv.
  - rewrite valid_int_param_check.
    destruct (negb (isinstance_int div) || (int_of div <? 2) || (int_of div >? 512)) eqn:Ediv;
      cbn [negb].
    + repeat split; try discriminate; intros; unfold raise; eauto.
    + destruct (osc_freq self) as [freq|] eqn:Hfreq.
      * rewrite valid_int_param_check.
        destruct (negb (isinstance_int freq) || (int_of freq <? 2100000)
                  || (int_of freq >? 80000000)) eqn:Efreq; cbn [negb].
        -- repeat split; try discriminate; intros; unfold raise; eauto.
        -- repeat split; try discriminate.
           intros _ _ Hrst. rewrite Hrst. cbn. eauto.
      * repeat split; try discriminate; intros; unfold raise; cbn; eauto.
  - repeat split; try discriminate; intros; unfold raise; cbn; eauto.
Qed.

End Validation.

Section ValidationExamples.
Import Demo.
Local Existing Instances demo_runtime demo_base.

(** Divider 1 and 513 and frequency 2099999 are refused; dividers 2 and
    512 and frequencies 2100000 and 80000000 are accepted. *)
Lemma create_missing_domain_osc_validation_witness :
  create_missing_domain (osc 60000000 1) "sync" init_state
  = Raise (ValueError "OSC divider (osc_div) must be an integer between 2 and 512, not 1")
  /\ create_missing_domain (osc 60000000 513) "sync" init_state
     = Raise (ValueError "OSC divider (osc_div) must be an integer between 2 and 512, not 513")
  /\ create_missing_domain (osc 2099999 12) "sync" init_state
     = Raise (ValueError
         "OSC frequency (osc_freq) must be an integer between 2100000 and 80000000, not 2099999")
  /\ is_ok (create_missing_domain (osc 60000000 2) "sync" init_state) = true
  /\ is_ok (create_missing_domain (osc 60000000 512) "sync" init_state) = true
  /\ is_ok (create_missing_domain (osc 2100000 12) "sync" init_state) = true
  /\ is_ok (create_missing_domain (osc 80000000 12) "sync" init_state) = true.
Proof.
  pose proof (fun f d => create_missing_domain_osc_validation (osc f d) init_state eq_refl) as V.
  repeat apply conj.
  - exact (proj1 (V 60000000 1) eq_refl).
  - exact (proj1 (V 60000000 513) eq_refl).
  - exact (proj1 (proj2 (V 2099999 12)) eq_refl eq_refl).
  - destruct (proj2 (proj2 (proj2 (V 60000000 2))) eq_refl eq_refl eq_refl) as (m & st' & ->).
    reflexivity.
  - destruct (proj2 (proj2 (proj2 (V 60000000 512))) eq_refl eq_refl eq_refl) as (m & st' & ->).
    reflexivity.
  - destruct (proj2 (proj2 (proj2 (V 2100000 12))) eq_refl eq_refl eq_refl) as (m & st' & ->).
    reflexivity.
  - destruct (proj2 (proj2 (proj2 (V 80000000 12))) eq_refl eq_refl eq_refl) as (m & st' & ->).
    reflexivity.
Defined.

End ValidationExamples.

Section DomainSynthesis.
Context {rt : PyRuntime} {base : TemplatedPlatform}.

Lemma get_i_Ok (p : Pin) (st : pstate) (s : Signal) (st' : pstate) :
  get_i p st = Ok (s, st') <-> pin_i p = Some s /\ st' = st.
Proof.
  unfold get_i. destruct (pin_i p) as [i|]; unfold ret, raise; split.
  - intros [= -> ->]. auto.
  - intros [[= ->] ->]. reflexivity.
  - discriminate.
  - intros [? _]. discriminate.
Qed.

(** Every successful run of [create_missing_domain] is a clock source followed
    by a reset source, assembled into [sync_module]. *)
Lemma create_missing_domain_inv (self : Platform) (name : string) (st : pstate)
    (m : Module) (st' : pstate) :
  create_missing_domain self name st = Ok (Some m, st') ->
  name = "sync" /\
  exists clk chain clk_i st1 rst_i,
    default_clk self = Some clk /\
    clock_source self clk st chain clk_i st1 /\
    reset_source self st1 rst_i st' /\
    m = sync_module chain clk_i rst_i.
Proof.
  unfold create_missing_domain.
  destruct (String.eqb name "sync") eqn:Hname; [|discriminate].
  destruct (default_clk self) as [clk|] eqn:Hclk; [|discriminate].
  apply String.eqb_eq in Hname. intros Hrun. split; [exact Hname|].
  exists clk.
  unfold bind at 1 in Hrun.
  destruct (String.eqb clk "sys_clk0") eqn:Hosc.
  - apply String.eqb_eq in Hosc.
    destruct (osc_div self) as [div|] eqn:Hdiv; [|discriminate].
    destruct (negb (isinstance_int div) || (int_of div <? 2) || (int_of div >? 512)) eqn:Ediv;
      [discriminate|].
    destruct (osc_freq self) as [freq|] eqn:Hfreq; [|discriminate].
    destruct (negb (isinstance_int freq) || (int_of freq <? 2100000)
              || (int_of freq >? 80000000)) eqn:Efreq; [discriminate|].
    assert (Vdiv : valid_osc_div (osc_div self) = true).
    { rewrite Hdiv. unfold valid_osc_div. rewrite valid_int_param_check, Ediv. reflexivity. }
    assert (Vfreq : valid_osc_freq (osc_freq self) = true).
    { rewrite Hfreq. unfold valid_osc_freq. rewrite valid_int_param_check, Efreq. reflexivity. }
    cbn [bind new_Signal ret fst snd] in Hrun.
    destruct (default_rst self) as [rst|] eqn:Hrst.
    + unfold bind in Hrun.
      match type of Hrun with context [request rst ?s] => set (st2 := s) in * end.
      destruct (request rst st2) as [[pin st3]|] eqn:Hreq; [|discriminate].
      destruct (get_i pin st3) as [[i st4]|] eqn:Hi; [|discriminate].
      apply get_i_Ok in Hi as [Hi ->].
      injection Hrun as <- <-.
      eexists _, _, st2, (SignalRef i). repeat split.
      * eapply clock_from_oscillator; eauto; reflexivity.
      * eapply reset_from_pin; eauto.
    + cbn [bind ret] in Hrun. injection Hrun as <- <-.
      eexists _, _, _, (Const 0). repeat split.
      * eapply clock_from_oscillator; eauto; reflexivity.
      * apply reset_deasserted; assumption.
  - apply String.eqb_neq in Hosc.
    unfold bind at 1 in Hrun.
    destruct (request clk st) as [[pin st1]|] eqn:Hreq; [|discriminate].
    unfold bind at 1 in Hrun.
    destruct (get_i pin st1) as [[clk_i st1']|] eqn:Hi; [|discriminate].
    apply get_i_Ok in Hi as [Hi ->].
    cbn [ret fst snd] in Hrun.
    destruct (default_rst self) as [rst|] eqn:Hrst.
    + unfold bind in Hrun.
      destruct (request rst st1) as [[rpin st3]|] eqn:Hreq'; [|discriminate].
      destruct (get_i rpin st3) as [[i st4]|] eqn:Hi'; [|discriminate].
      apply get_i_Ok in Hi' as [Hi' ->].
      injection Hrun as <- <-.
      exists [], clk_i, st1, (SignalRef i). repeat split.
      * eapply clock_from_pin; eauto.
      * eapply reset_from_pin; eauto.
    + cbn [bind ret] in Hrun. injection Hrun as <- <-.
      exists [], clk_i, st1, (Const 0). repeat split.
      * eapply clock_from_pin; eauto.
      * apply reset_deasserted; assumption.
Qed.

Lemma valid_int_param_Some lo hi (o : option pyval) :
  valid_int_param lo hi o = true ->
  exists v, o = Some v /\
    negb (isinstance_int v) || (int_of v <? lo) || (int_of v >? hi) = false.
Proof.
  destruct o as [v|]; [|discriminate].
  rewrite valid_int_param_check. intros Hv. exists v. split; [reflexivity|].
  now apply negb_true_iff.
Qed.

Lemma reset_source_run (self : Platform) (st : pstate) (rst_i : Value) (st' : pstate) :
  reset_source self st rst_i st' ->
  match default_rst self with
  | Some rst => pin <- request rst ;; i <- get_i pin ;; ret (SignalRef i)
  | None => ret (Const 0)
  end st = Ok (rst_i, st').
Proof.
  intros [rst pin i st1 Hrst Hreq Hi | Hrst]; rewrite Hrst.
  - unfold bind. rewrite Hreq. unfold get_i. rewrite Hi. reflexivity.
  - reflexivity.
Qed.

(** Conversely, a clock source followed by a reset source is a successful
    run. *)
Lemma create_missing_domain_complete (self : Platform) (st : pstate) (clk : string)
    (chain : list (option string * Submodule)) (clk_i : Signal) (st1 : pstate)
    (rst_i : Value) (st' : pstate) :
  default_clk self = Some clk ->
  clock_source self clk st chain clk_i st1 ->
  reset_source self st1 rst_i st' ->
  create_missing_domain self "sync" st = Ok (Some (sync_module chain clk_i rst_i), st').
Proof.
  intros Hclk Hsrc Hrst. apply reset_source_run in Hrst.
  unfold create_missing_domain. rewrite Hclk. cbn [String.eqb Ascii.eqb Bool.eqb].
  unfold bind at 1.
  destruct Hsrc as [ci s0 sa sb -> Vdiv Vfreq Hci Hs0 | pin ci sa Hne Hreq Hi].
  - cbn [String.eqb Ascii.eqb Bool.eqb].
    apply valid_int_param_Some in Vdiv as (div & -> & ->).
    apply valid_int_param_Some in Vfreq as (freq & -> & ->).
    unfold bind at 1. rewrite Hci. unfold bind at 1. rewrite Hs0.
    cbn [ret fst snd]. unfold bind at 1. rewrite Hrst. reflexivity.
  - apply String.eqb_neq in Hne. rewrite Hne.
    unfold bind at 1. rewrite Hreq.
    unfold bind at 1. rewrite (proj2 (get_i_Ok pin sa ci sa) (conj Hi eq_refl)).
    cbn [ret fst snd]. unfold bind at 1. rewrite Hrst. reflexivity.
Qed.

(** C4. [create_missing_domain] returns [None], leaving the platform as it
    was, for any name other than ["sync"] and when [default_clk] is [None];
    it returns a module exactly when the name is ["sync"], a default clock is
    configured, the clock source is derived (the oscillator chain of two
    instances for ["sys_clk0"], a requested pin otherwise) and the reset source
    is derived; that module has the single clock domain ["sync"], drives
    [ClockSignal("sync")] combinationally from the derived clock net, and ends
    with the [ResetSynchronizer] of the derived reset in domain ["sync"]. *)
Theorem create_missing_domain_sync_module (self : Platform) (name : string) (st : pstate) :
  (name <> "sync" \/ default_clk self = None ->
   create_missing_domain self name st = Ok (None, st))
  /\ (forall m st',
        create_missing_domain self name st = Ok (Some m, st') <->
        name = "sync" /\
        exists clk chain clk_i st1 rst_i,
          default_clk self = Some clk /\
          clock_source self clk st chain clk_i st1 /\
          reset_source self st1 rst_i st' /\
          m = sync_module chain clk_i rst_i)
  /\ (forall m st',
        create_missing_domain self name st = Ok (Some m, st') ->
        domains m = [{| cd_name := "sync" |}] /\
        exists clk_i rst_i,
          comb m = [Assign (ClockSignal "sync") (SignalRef clk_i)] /\
          last (submodules m) = Some (Some "reset_sync", ResetSynchronizer rst_i "sync") /\
          (default_clk self = Some "sys_clk0" ->
           exists sys_clk0,
             submodules m = oscillator_chain sys_clk0 clk_i
                            ++ [(Some "reset_sync", ResetSynchronizer rst_i "sync")]) /\
          (default_clk self <> Some "sys_clk0" ->
           submodules m = [(Some "reset_sync", ResetSynchronizer rst_i "sync")] /\
           exists clk pin st1,
             default_clk self = Some clk /\
             request clk st = Ok (pin, st1) /\ pin_i pin = Some clk_i)).
Proof.
  split; [|split].
  - intros Hno. unfold create_missing_domain.
    destruct (String.eqb name "sync") eqn:Hname; [|reflexivity].
    apply String.eqb_eq in Hname.
    destruct Hno as [Hno | ->]; [contradiction|reflexivity].
  - intros m st'. split.
    + apply create_missing_domain_inv.
    + intros (-> & clk & chain & clk_i & st1 & rst_i & Hclk & Hsrc & Hrst & ->).
      eapply create_missing_domain_complete; eassumption.
  - intros m st' Hrun.
    apply create_missing_domain_inv in Hrun
      as (-> & clk & chain & clk_i & st1 & rst_i & Hclk & Hsrc & Hrst & ->).
    split; [reflexivity|].
    exists clk_i, rst_i. split; [reflexivity|].
    split; [cbn [sync_module submodules]; apply last_snoc|].
    destruct Hsrc as [ci s0 sa sb -> _ _ _ _ | pin ci sa Hne Hreq Hi].
    + split.
      * intros _. exists s0. reflexivity.
      * intros Hne. congruence.
    + split.
      * intros Heq. congruence.
      * intros _. split; [reflexivity|]. exists clk, pin, sa. auto.
Qed.

(** C7. In a successful [create_missing_domain] for ["sync"], the reset fed to
    the reset synchronizer is the input of the requested [default_rst] pin
    when one is configured, and the constant 0 otherwise. *)
Theorem create_missing_domain_reset_source (self : Platform) (name : string)
    (st : pstate) (m : Module) (st' : pstate) :
  create_missing_domain self name st = Ok (Some m, st') ->
  (default_rst self = None ->
   last (submodules m) = Some (Some "reset_sync", ResetSynchronizer (Const 0) "sync"))
  /\ (forall rst, default_rst self = Some rst ->
       exists st1 pin rst_i,
         request rst st1 = Ok (pin, st') /\
         pin_i pin = Some rst_i /\
         last (submodules m)
         = Some (Some "reset_sync", ResetSynchronizer (SignalRef rst_i) "sync")).
Proof.
  intros Hrun.
  apply create_missing_domain_inv in Hrun
    as (-> & clk & chain & clk_i & st1 & rst_v & Hclk & Hsrc & Hrst & ->).
  cbn [sync_module submodules]. rewrite last_snoc.
  destruct Hrst as [rst pin rst_i st2 Hr Hreq Hi | Hr]; split.
  - intros Hnone. congruence.
  - intros rst' Hsome. assert (rst' = rst) as -> by congruence.
    exists st1, pin, rst_i. auto.
  - reflexivity.
  - intros rst' Hsome. congruence.
Qed.

End DomainSynthesis.

Section ClockConstraints.
Context {rt : PyRuntime} {base : TemplatedPlatform}.

Lemma od_get_set (k v : string) (d : odict) : od_get k (od_set k v d) = Some v.
Proof.
  induction d as [|[k' v'] d IH]; cbn.
  - now rewrite String.eqb_refl.
  - destruct (String.eqb k k') eqn:E; cbn; rewrite ?String.eqb_refl, ?E; auto.
Qed.

Lemma attrs_of_set_attr (s : Signal) (k v : string) (st st' : pstate) :
  set_attr s k v st = Ok (tt, st') ->
  attrs_of st' s = od_set k v (attrs_of st s).
Proof.
  unfold set_attr. intros [= <-].
  unfold attrs_of at 1. cbn [attrs_store]. now rewrite lookup_insert_eq.
Qed.

(** A fresh signal has no attribute, and creating signals constrains no
    clock. *)
Lemma new_Signal_attrs (n : string) (st : pstate) (s : Signal) (st' : pstate) :
  new_Signal n st = Ok (s, st') ->
  attrs_of st' s = [] /\ sig_id s = next_id st /\ next_id st' = S (next_id st)
  /\ clocks st' = clocks st
  /\ forall t, sig_id t <> sig_id s -> attrs_of st' t = attrs_of st t.
Proof.
  unfold new_Signal. intros [= <- <-]. cbn. unfold attrs_of. cbn.
  rewrite lookup_insert_eq. repeat split; try reflexivity.
  intros t Ht. now rewrite lookup_insert_ne by congruence.
Qed.

(** The run on the internal oscillator with no reset pin, in full. *)
Lemma create_missing_domain_oscillator_run (self : Platform) (st : pstate) :
  default_clk self = Some "sys_clk0" ->
  default_rst self = None ->
  valid_osc_div (osc_div self) = true ->
  valid_osc_freq (osc_freq self) = true ->
  exists clk_i sys_clk0 st1 st2,
    new_Signal "clk_i" st = Ok (clk_i, st1) /\
    new_Signal "sys_clk0" st1 = Ok (sys_clk0, st2) /\
    create_missing_domain self "sync" st
    = Ok (Some (sync_module (oscillator_chain sys_clk0 clk_i) clk_i (Const 0)), st2).
Proof.
  intros Hclk Hrst Vdiv Vfreq.
  destruct (new_Signal "clk_i" st) as [[clk_i st1]|] eqn:H1; [|discriminate].
  destruct (new_Signal "sys_clk0" st1) as [[sys_clk0 st2]|] eqn:H2; [|discriminate].
  exists clk_i, sys_clk0, st1, st2. split; [reflexivity|]. split; [exact H2|].
  eapply create_missing_domain_complete; [eassumption| |].
  - eapply clock_from_oscillator; eauto.
  - now apply reset_deasserted.
Qed.

(** C6 (as the code has it). [add_clock_constraint] leaves the clock signal
    with the attribute [keep = "TRUE"]. Domain synthesis on the internal
    oscillator, for all in-range parameters (and no reset pin), succeeds with
    exactly one domain ["sync"]; its driving signal [clk_i] is a fresh signal
    on which [create_missing_domain] sets no attribute and adds no clock
    constraint, so it carries no [keep]. *)
Theorem add_clock_constraint_keep :
  (forall clock freq st st',
     add_clock_constraint clock freq st = Ok (tt, st') ->
     od_get "keep" (attrs_of st' clock) = Some "TRUE")
  /\ (forall self st,
        default_clk self = Some "sys_clk0" ->
        default_rst self = None ->
        valid_osc_div (osc_div self) = true ->
        valid_osc_freq (osc_freq self) = true ->
        exists m st' clk_i,
          create_missing_domain self "sync" st = Ok (Some m, st') /\
          domains m = [{| cd_name := "sync" |}] /\
          comb m = [Assign (ClockSignal "sync") (SignalRef clk_i)] /\
          sig_id clk_i = next_id st /\
          attrs_of st' clk_i = [] /\
          od_get "keep" (attrs_of st' clk_i) = None /\
          clocks st' = clocks st).
Proof.
  split.
  - intros clock freq st st'. unfold add_clock_constraint, bind.
    destruct (super_add_clock_constraint clock freq st) as [[[] st1]|]; [|discriminate].
    intros Hset. apply attrs_of_set_attr in Hset. rewrite Hset. apply od_get_set.
  - intros self st Hclk Hrst Vdiv Vfreq.
    destruct (create_missing_domain_oscillator_run self st Hclk Hrst Vdiv Vfreq)
      as (clk_i & sys_clk0 & st1 & st2 & H1 & H2 & Hrun).
    apply new_Signal_attrs in H1 as (A1 & I1 & N1 & C1 & _).
    apply new_Signal_attrs in H2 as (_ & I2 & _ & C2 & O2).
    assert (Hattrs : attrs_of st2 clk_i = []).
    { rewrite O2; [exact A1|]. rewrite I1, I2, N1. lia. }
    eexists _, st2, clk_i. split; [exact Hrun|].
    repeat apply conj; try assumption; try reflexivity.
    + now rewrite Hattrs.
    + congruence.
Qed.

End ClockConstraints.

Section DomainExamples.
Import Demo.
Local Existing Instances demo_runtime demo_base.

Lemma create_missing_domain_sync_module_witness :
  create_missing_domain quickfeather "dac" init_state = Ok (None, init_state)
  /\ create_missing_domain (osc 60000000 12) "sync" init_state
     = Ok (Some (sync_module
                   (oscillator_chain {| sig_id := 1; sig_name := "sys_clk0" |}
                                     {| sig_id := 0; sig_name := "clk_i" |})
                   {| sig_id := 0; sig_name := "clk_i" |} (Const 0)),
           {| next_id := 2; attrs_store := <[1%nat := []]> (<[0%nat := []]> ∅);
              clocks := []; requested := [] |}).
Proof.
  split.
  - apply (proj1 (create_missing_domain_sync_module quickfeather "dac" init_state)).
    left. discriminate.
  - apply (proj1 (proj2 (create_missing_domain_sync_module (osc 60000000 12) "sync"
                           init_state))).
    split; [reflexivity|].
    exists "sys_clk0", (oscillator_chain {| sig_id := 1; sig_name := "sys_clk0" |}
                                    {| sig_id := 0; sig_name := "clk_i" |}),
      {| sig_id := 0; sig_name := "clk_i" |},
      {| next_id := 2; attrs_store := <[1%nat := []]> (<[0%nat := []]> ∅);
         clocks := []; requested := [] |}, (Const 0).
    repeat apply conj; try reflexivity.
    + eapply clock_from_oscillator; reflexivity.
    + now apply reset_deasserted.
Defined.

Lemma create_missing_domain_reset_source_witness :
  (exists m st',
     create_missing_domain pin_clocked "sync" init_state = Ok (Some m, st')
     /\ exists st1 pin rst_i,
          request "rst" st1 = Ok (pin, st')
          /\ pin_i pin = Some rst_i
          /\ last (submodules m)
             = Some (Some "reset_sync", ResetSynchronizer (SignalRef rst_i) "sync"))
  /\ (exists m st',
        create_missing_domain quickfeather "sync" init_state = Ok (Some m, st')
        /\ last (submodules m)
           = Some (Some "reset_sync", ResetSynchronizer (Const 0) "sync")).
Proof.
  split.
  - eexists _, _. split; [lazy; reflexivity|].
    refine (proj2 (create_missing_domain_reset_source pin_clocked "sync" init_state _ _ _)
              "rst" eq_refl).
    lazy; reflexivity.
  - eexists _, _. split; [lazy; reflexivity|].
    refine (proj1 (create_missing_domain_reset_source quickfeather "sync" init_state _ _ _)
              eq_refl).
    lazy; reflexivity.
Defined.

Lemma add_clock_constraint_keep_witness :
  exists st',
    add_clock_constraint osc_net (PyInt 5000000) init_state = Ok (tt, st')
    /\ od_get "keep" (attrs_of st' osc_net) = Some "TRUE".
Proof.
  eexists. split; [lazy; reflexivity|].
  refine (proj1 add_clock_constraint_keep osc_net (PyInt 5000000) init_state _ _).
  lazy; reflexivity.
Defined.

(** The synthesized oscillator clock of a board with in-range parameters
    carries no [keep] attribute. *)
Lemma oscillator_clock_not_kept :
  valid_osc_div (osc_div quickfeather) = true
  /\ valid_osc_freq (osc_freq quickfeather) = true
  /\ exists m st' clk_i,
       create_missing_domain quickfeather "sync" init_state = Ok (Some m, st')
       /\ domains m = [{| cd_name := "sync" |}]
       /\ comb m = [Assign (ClockSignal "sync") (SignalRef clk_i)]
       /\ od_get "keep" (attrs_of st' clk_i) = None.
Proof.
  split; [reflexivity|]. split; [reflexivity|].
  eexists _, _, _. split; [lazy; reflexivity|]. repeat apply conj; reflexivity.
Qed.

End DomainExamples.

Section FileRendering.
Context {rt : PyRuntime} {base : TemplatedPlatform}.

Lemma append_empty_r (s : string) : s +:+ "" = s.
Proof.
  induction s as [|c s IH]; [reflexivity|].
  change (String c (s +:+ "") = String c s). now rewrite IH.
Qed.

Lemma append_assoc' (a b c : string) : (a +:+ b) +:+ c = a +:+ (b +:+ c).
Proof.
  induction a as [|x a IH]; [reflexivity|].
  change (String x ((a +:+ b) +:+ c) = String x (a +:+ (b +:+ c))). now rewrite IH.
Qed.

Lemma join_app (xs ys : list string) : join (xs ++ ys) = join xs +:+ join ys.
Proof.
  induction xs as [|x xs IH]; [reflexivity|].
  change (x +:+ join (xs ++ ys) = (x +:+ join xs) +:+ join ys).
  now rewrite IH, append_assoc'.
Qed.

(** A loop whose body prints the lines [f x] prints them all, in order. *)
Lemma for_each_lines {A} (body : A -> result string) (f : A -> list string) (xs : list A) :
  (forall x, In x xs -> body x = Ok (join (f x))) ->
  for_each body xs = Ok (join (flat_map f xs)).
Proof.
  induction xs as [|x xs IH]; intros Hbody; cbn; [reflexivity|].
  rewrite (Hbody x) by (left; reflexivity).
  rewrite IH by (intros y Hy; apply Hbody; right; exact Hy).
  now rewrite join_app.
Qed.

Lemma for_each_ext {A} (body body' : A -> result string) (xs : list A) :
  (forall x, In x xs -> body x = body' x) ->
  for_each body xs = for_each body' xs.
Proof.
  induction xs as [|x xs IH]; intros Hbody; cbn; [reflexivity|].
  rewrite (Hbody x) by (left; reflexivity).
  rewrite IH by (intros y Hy; apply Hbody; right; exact Hy).
  reflexivity.
Qed.

Lemma truediv_1e8 (f : float) :
  py_truediv (PyInt 100000000) (PyFloat f) =
  if PrimFloat.eqb f 0%float then Raise ZeroDivisionError
  else Ok (PrimFloat.div 100000000%float f).
Proof.
  unfold py_truediv. cbn [isinstance_int andb to_float int_of].
  replace (float_of_Z 100000000) with 100000000%float by (vm_compute; reflexivity).
  reflexivity.
Qed.

Lemma sdc_clock_port (net port : Signal) (f : float) :
  PrimFloat.eqb f 0%float = false ->
  sdc_clock (net, Some port, f) = Ok (create_clock_line port f).
Proof.
  intros Hf. unfold sdc_clock. rewrite truediv_1e8, Hf. reflexivity.
Qed.

Lemma sdc_lines_length (cs : list (Signal * option Signal * float)) :
  length (sdc_lines cs) = length (List.filter has_port cs).
Proof.
  unfold sdc_lines.
  induction cs as [|[[net [port|]] f] cs IH]; cbn; congruence.
Qed.

(** C3. When no ported clock constraint has frequency zero, the [.sdc] file
    is its banner followed by exactly one [create_clock] line per clock
    constraint with a port, whose period is 10^8 divided by the constraint's
    frequency, and nothing for a constraint without a port; at 100 MHz the
    period is 1 and at 50 MHz it is 2. *)
Theorem tpl_sdc_create_clock (ctx : RenderCtx) :
  (forall net port f,
     In (net, Some port, f) (iter_clock_constraints ctx) -> PrimFloat.eqb f 0%float = false) ->
  tpl_sdc ctx
  = Ok ("# " +:+ autogenerated ctx +:+ nl +:+ join (sdc_lines (iter_clock_constraints ctx)))
  /\ length (sdc_lines (iter_clock_constraints ctx))
     = length (List.filter has_port (iter_clock_constraints ctx))
  /\ (forall net f, sdc_lines [(net, None, f)] = [])
  /\ (forall net port f,
        sdc_lines [(net, Some port, f)]
        = ["create_clock -period " +:+ float_repr (PrimFloat.div 100000000%float f)
           +:+ " " +:+ ascii_escape (sig_name port) +:+ nl])
  /\ (forall net port,
        sdc_lines [(net, Some port, 100000000%float)]
        = ["create_clock -period " +:+ float_repr 1%float
           +:+ " " +:+ ascii_escape (sig_name port) +:+ nl])
  /\ (forall net port,
        sdc_lines [(net, Some port, 50000000%float)]
        = ["create_clock -period " +:+ float_repr 2%float
           +:+ " " +:+ ascii_escape (sig_name port) +:+ nl]).
Proof.
  intros Hnz. split; [|split; [apply sdc_lines_length|repeat split]].
  unfold tpl_sdc, sdc_lines.
  rewrite for_each_lines
    with (f := fun c : Signal * option Signal * float =>
                 match c with
                 | (_, Some port, frequency) => [create_clock_line port frequency]
                 | (_, None, _) => []
                 end).
  - reflexivity.
  - intros [[net [port|]] f] Hin.
    + rewrite sdc_clock_port by (eapply Hnz; exact Hin).
      cbn [join fold_right]. now rewrite append_empty_r.
    + reflexivity.
Qed.

End FileRendering.

Section AttributeFile.
Context {rt : PyRuntime} {base : TemplatedPlatform}.

Lemma xdc_port_lines (c : string * string * odict) :
  xdc_port c = Ok (join (let '(port_name, _, attrs) := c in
                         map (set_property_line port_name) attrs)).
Proof.
  destruct c as [[port_name pin_name] attrs]. unfold xdc_port.
  induction attrs as [|[k v] attrs IH]; [reflexivity|].
  cbn [for_each xdc_line]. rewrite IH. reflexivity.
Qed.

(** C10. The [.xdc] file is its banner, then for every port constraint and
    every attribute of it, in order, the line
    [set_property <attr_name> <attr_value> [get_ports <tcl-escaped port name> }]]
    with a closing brace between the escaped port name and the closing
    bracket, then the [add_constraints] override or its placeholder. *)
Theorem tpl_xdc_set_property (ctx : RenderCtx) :
  tpl_xdc ctx
  = Ok ("# " +:+ autogenerated ctx +:+ nl
        +:+ join (xdc_lines (iter_port_constraints_bits ctx))
        +:+ default "# (add_constraints placeholder)" (get_override ctx "add_constraints"))
  /\ forall port_name pin_name attr_name attr_value,
       xdc_lines [(port_name, pin_name, [(attr_name, attr_value)])]
       = ["set_property " +:+ attr_name +:+ " " +:+ attr_value
          +:+ " [get_ports " +:+ tcl_escape port_name +:+ " }]" +:+ nl].
Proof.
  split; [|reflexivity].
  unfold tpl_xdc, xdc_lines.
  rewrite for_each_lines
    with (f := fun p : string * string * odict =>
                 match p with
                 | (port_name, _, attrs) => map (set_property_line port_name) attrs
                 end).
  - reflexivity.
  - intros [[port_name pin_name] attrs] _. apply xdc_port_lines.
Qed.

(** C8. Rendering the five file templates reads nothing but the banner, the
    netlist text, the port constraints, the clock constraints and the
    [add_constraints] override: two contexts that agree on these produce the
    same text, or the same exception, for each of the five files. *)
Theorem file_templates_deterministic (ctx1 ctx2 : RenderCtx) :
  autogenerated ctx1 = autogenerated ctx2 ->
  emit_verilog ctx1 = emit_verilog ctx2 ->
  emit_debug_verilog ctx1 = emit_debug_verilog ctx2 ->
  iter_port_constraints_bits ctx1 = iter_port_constraints_bits ctx2 ->
  iter_clock_constraints ctx1 = iter_clock_constraints ctx2 ->
  get_override ctx1 "add_constraints" = get_override ctx2 "add_constraints" ->
  length file_templates = 5%nat
  /\ map (fun t => snd t ctx1) file_templates = map (fun t => snd t ctx2) file_templates.
Proof.
  intros Hbanner Hv Hdv Hports Hclocks Hover.
  split; [reflexivity|].
  unfold file_templates. cbn [map snd].
  unfold tpl_v, tpl_debug_v, tpl_pcf, tpl_xdc, tpl_sdc.
  now rewrite Hbanner, Hv, Hdv, Hports, Hclocks, Hover.
Qed.

End AttributeFile.

Section FileExamples.
Import Demo.
Local Existing Instances demo_runtime demo_base.

Lemma tpl_sdc_create_clock_witness :
  tpl_sdc (demo_ctx quickfeather)
  = Ok ("# Automatically generated by nMigen. Do not edit." +:+ nl
        +:+ "create_clock -period 1.0 clk12" +:+ nl).
Proof.
  refine (proj1 (tpl_sdc_create_clock (demo_ctx quickfeather) _)).
  intros net port f [[= <- <- <-]|[[=]|[]]]. reflexivity.
Defined.

(** A ported clock constraint of 0 Hz makes the division, and with it the
    rendering of the file, fail. *)
Remark tpl_sdc_zero_frequency :
  tpl_sdc (with_clocks (demo_ctx quickfeather) [(clk12_net, Some clk12_port, 0%float)])
  = Raise ZeroDivisionError.
Proof. reflexivity. Qed.

Lemma file_templates_deterministic_witness :
  map (fun t => snd t (demo_ctx quickfeather)) file_templates
  = map (fun t => snd t (with_platform (demo_ctx quickfeather) pin_clocked)) file_templates.
Proof.
  exact (proj2 (file_templates_deterministic (demo_ctx quickfeather)
                  (with_platform (demo_ctx quickfeather) pin_clocked)
                  eq_refl eq_refl eq_refl eq_refl eq_refl eq_refl)).
Defined.

End FileExamples.

Section Commands.
Context {rt : PyRuntime} {base : TemplatedPlatform}.

Lemma cexpr_eqb_refl (e : cexpr) : cexpr_eqb e e = true.
Proof. destruct e; cbn; auto using String.eqb_refl. Qed.

(** A rendered command depends on the context only through the expressions
    its template mentions and the files it loops over. *)
Lemma render_command_agree (ctx1 ctx2 : RenderCtx) (tpl : command_template) :
  (forall e, mentions e tpl = true -> eval_cexpr ctx1 e = eval_cexpr ctx2 e) ->
  (forall suffixes, iter_files ctx1 suffixes = iter_files ctx2 suffixes) ->
  render_command ctx1 tpl = render_command ctx2 tpl.
Proof.
  intros Hexpr Hfiles.
  induction tpl as [|w tpl IH]; [reflexivity|].
  cbn [render_command].
  rewrite IH.
  - assert (Hw : render_word ctx1 w = render_word ctx2 w).
    { destruct w as [atoms|suffixes]; cbn [render_word]; [|now rewrite Hfiles].
      rewrite for_each_ext with (body' := render_atom ctx2); [reflexivity|].
      intros [lit|e] Hin; [reflexivity|]. cbn [render_atom].
      apply Hexpr. unfold mentions. cbn [existsb word_mentions].
      apply orb_true_iff. left. apply existsb_exists.
      exists (Subst e). split; [exact Hin|]. apply cexpr_eqb_refl. }
    now rewrite Hw.
  - intros e He. apply Hexpr. unfold mentions in *. cbn [existsb].
    rewrite He. apply orb_true_r.
Qed.

Lemma eval_cexpr_build (ctx1 ctx2 : RenderCtx) (e : cexpr) :
  name ctx1 = name ctx2 ->
  device (platform ctx1) = device (platform ctx2) ->
  package (platform ctx1) = package (platform ctx2) ->
  (e = COscFreq -> osc_freq (platform ctx1) = osc_freq (platform ctx2)) ->
  (e = COscDiv -> osc_div (platform ctx1) = osc_div (platform ctx2)) ->
  eval_cexpr ctx1 e = eval_cexpr ctx2 e.
Proof.
  intros Hn Hd Hp Hf Hv. destruct e; cbn [eval_cexpr]; try congruence.
  - now rewrite Hf.
  - now rewrite Hv.
Qed.

(** C5 (as the code has it). The command list is seven commands in the order
    synthesis, packing, placement, routing, [write_fasm], bitstream generation,
    programming-file conversion. The first six go through [invoke_tool] and
    are determined by the design name, the extra source files, and the device
    and package; the seventh starts with the literal
    [python3 -m quicklogic_fasm.bitstream_to_openocd] (no command invokes
    [symbiflow_write_openocd]) and is determined by these together with the
    platform's [osc_freq] and [osc_div]. *)
Theorem command_templates_pipeline :
  map invoked_tool command_templates
  = [ Some "symbiflow_synth"; Some "symbiflow_pack"; Some "symbiflow_place";
      Some "symbiflow_route"; Some "symbiflow_write_fasm";
      Some "symbiflow_write_bitstream"; None ]
  /\ (exists args,
        command_templates !! 6%nat
        = Some (flag "python3" :: flag "-m" :: flag "quicklogic_fasm.bitstream_to_openocd"
                :: args))
  /\ forallb (fun tpl => negb (mentions (CInvokeTool "symbiflow_write_openocd") tpl))
       command_templates = true
  /\ forall ctx1 ctx2,
       name ctx1 = name ctx2 ->
       device (platform ctx1) = device (platform ctx2) ->
       package (platform ctx1) = package (platform ctx2) ->
       (forall suffixes, iter_files ctx1 suffixes = iter_files ctx2 suffixes) ->
       (forall tpl, In tpl (firstn 6 command_templates) ->
                    render_command ctx1 tpl = render_command ctx2 tpl)
       /\ (osc_freq (platform ctx1) = osc_freq (platform ctx2) ->
           osc_div (platform ctx1) = osc_div (platform ctx2) ->
           forall tpl, In tpl command_templates ->
                       render_command ctx1 tpl = render_command ctx2 tpl).
Proof.
  split; [reflexivity|]. split; [eexists; reflexivity|]. split; [reflexivity|].
  intros ctx1 ctx2 Hn Hd Hp Hfiles. split.
  - intros tpl Hin. apply render_command_agree; [|exact Hfiles].
    intros e He. apply eval_cexpr_build; try assumption.
    + intros ->. cbn in Hin.
      repeat (destruct Hin as [<-|Hin]; [discriminate He|]). contradiction.
    + intros ->. cbn in Hin.
      repeat (destruct Hin as [<-|Hin]; [discriminate He|]). contradiction.
  - intros Hf Hv tpl _. apply render_command_agree; [|exact Hfiles].
    intros e _. apply eval_cexpr_build; auto.
Qed.

(** C2 (as the code has it). With a default clock other than the internal
    oscillator, [create_missing_domain] does not consult [osc_freq] or
    [osc_div], and no file template reads the platform object at all; but the
    seventh command template mentions both parameters whatever the default
    clock is, and rendering it on a platform without [osc_freq] is an
    undefined-variable error. *)
Theorem osc_params_where_used :
  (forall self name st freq div,
     default_clk self <> Some "sys_clk0" ->
     create_missing_domain (with_osc freq div self) name st
     = create_missing_domain self name st)
  /\ (forall ctx p,
        map (fun t => snd t (with_platform ctx p)) file_templates
        = map (fun t => snd t ctx) file_templates)
  /\ map (mentions COscFreq) command_templates
     = [false; false; false; false; false; false; true]
  /\ map (mentions COscDiv) command_templates
     = [false; false; false; false; false; false; true]
  /\ (forall ctx,
        osc_freq (platform ctx) = None ->
        map (render_command ctx) command_templates !! 6%nat
        = Some (Raise (UndefinedError "osc_freq"))).
Proof.
  repeat apply conj; try reflexivity.
  - intros self name st freq div Hclk. unfold create_missing_domain.
    cbn [with_osc default_clk default_rst].
    destruct (String.eqb name "sync"); [|reflexivity].
    destruct (default_clk self) as [clk|] eqn:E; [|reflexivity].
    destruct (String.eqb clk "sys_clk0") eqn:Hosc; [|reflexivity].
    apply String.eqb_eq in Hosc. congruence.
  - intros ctx Hnone. cbn [command_templates map lookup list_lookup].
    cbn [render_command render_word flag artifact for_each render_atom eval_cexpr].
    rewrite Hnone. reflexivity.
Qed.

(** C9. With [default_clk == "sys_clk0"] the default clock constraint is
    [Clock(osc_freq / osc_div)], the quotient of the two parameters by
    Python's true division; with any other default clock it is the base
    class's. *)
Theorem default_clk_constraint_divided (self : Platform) :
  (default_clk self = Some "sys_clk0" ->
   forall freq div q,
     osc_freq self = Some freq ->
     osc_div self = Some div ->
     py_truediv freq div = Ok q ->
     default_clk_constraint self = Ok (Some {| frequency := q |}))
  /\ (default_clk self <> Some "sys_clk0" ->
      default_clk_constraint self = super_default_clk_constraint self).
Proof.
  unfold default_clk_constraint. split.
  - intros Hclk freq div q Hf Hd Hq.
    rewrite bool_decide_eq_true_2 by exact Hclk.
    rewrite Hf, Hd. cbn [getattr]. now rewrite Hq.
  - intros Hclk. now rewrite bool_decide_eq_false_2 by exact Hclk.
Qed.

End Commands.

Section CommandExamples.
Import Demo.
Local Existing Instances demo_runtime demo_base.

Lemma command_templates_pipeline_witness :
  map (render_command (demo_ctx quickfeather)) command_templates
  = map (render_command (with_platform (demo_ctx quickfeather) (osc 60000000 12)))
      command_templates.
Proof.
  apply map_ext_in. intros tpl Hin.
  exact (proj2 (proj2 (proj2 (proj2 command_templates_pipeline)) (demo_ctx quickfeather)
                  (with_platform (demo_ctx quickfeather) (osc 60000000 12))
                  eq_refl eq_refl eq_refl (fun _ => eq_refl))
           eq_refl eq_refl tpl Hin).
Defined.

(** Two builds with the same name, device, package and files whose
    conversion commands differ. *)
Lemma conversion_command_reads_oscillator :
  name (demo_ctx (osc 60000000 12)) = name (demo_ctx (osc 30000000 12))
  /\ device (platform (demo_ctx (osc 60000000 12)))
     = device (platform (demo_ctx (osc 30000000 12)))
  /\ package (platform (demo_ctx (osc 60000000 12)))
     = package (platform (demo_ctx (osc 30000000 12)))
  /\ iter_files (demo_ctx (osc 60000000 12)) = iter_files (demo_ctx (osc 30000000 12))
  /\ map (render_command (demo_ctx (osc 60000000 12))) command_templates !! 6%nat
     = Some (Ok ["python3"; "-m"; "quicklogic_fasm.bitstream_to_openocd"; "top.bit";
                 "top.openocd"; "--osc-freq"; "60000000"; "--fpga-clk-divider"; "12"])
  /\ map (render_command (demo_ctx (osc 30000000 12))) command_templates !! 6%nat
     = Some (Ok ["python3"; "-m"; "quicklogic_fasm.bitstream_to_openocd"; "top.bit";
                 "top.openocd"; "--osc-freq"; "30000000"; "--fpga-clk-divider"; "12"])
  /\ map (render_command (demo_ctx (osc 60000000 12))) command_templates !! 6%nat
     <> map (render_command (demo_ctx (osc 30000000 12))) command_templates !! 6%nat.
Proof. repeat apply conj; try reflexivity. discriminate. Qed.

Lemma osc_params_where_used_witness :
  create_missing_domain (with_osc (Some (PyInt 1)) (Some (PyInt 1)) pin_clocked) "sync" init_state
  = create_missing_domain pin_clocked "sync" init_state.
Proof.
  refine (proj1 osc_params_where_used pin_clocked "sync" init_state _ _ _).
  discriminate.
Defined.

(** A build clocked from an external pin whose command list mentions
    [osc_freq] and [osc_div] and cannot be rendered without them. *)
Lemma pin_clocked_commands_need_oscillator :
  default_clk pin_clocked = Some "clk12"
  /\ osc_freq pin_clocked = None
  /\ osc_div pin_clocked = None
  /\ existsb (mentions COscFreq) command_templates = true
  /\ existsb (mentions COscDiv) command_templates = true
  /\ map (render_command (demo_ctx pin_clocked)) command_templates !! 6%nat
     = Some (Raise (UndefinedError "osc_freq")).
Proof. repeat apply conj; reflexivity. Qed.

Lemma default_clk_constraint_divided_witness :
  default_clk_constraint quickfeather = Ok (Some {| frequency := 5000000%float |})
  /\ default_clk_constraint pin_clocked = Ok (Some {| frequency := 12000000%float |}).
Proof.
  split.
  - refine (proj1 (default_clk_constraint_divided quickfeather) eq_refl
              (PyInt 60000000) (PyInt 12) _ eq_refl eq_refl _).
    vm_compute. reflexivity.
  - refine (eq_trans (proj2 (default_clk_constraint_divided pin_clocked) _) eq_refl).
    discriminate.
Defined.

End CommandExamples.

(** ** Further properties of the platform *)

Section TimingFile.
Context {rt : PyRuntime} {base : TemplatedPlatform}.

Lemma sdc_clock_cases (c : Signal * option Signal * float) :
  sdc_clock c = if zero_clock c then Raise ZeroDivisionError else Ok (join (sdc_lines [c])).
Proof.
  destruct c as [[net [port|]] f]; unfold zero_clock; cbn [has_port andb snd].
  - unfold sdc_clock. rewrite truediv_1e8.
    destruct (PrimFloat.eqb f 0%float); [reflexivity|].
    cbn [sdc_lines flat_map app join fold_right]. now rewrite append_empty_r.
  - reflexivity.
Qed.

Lemma for_each_sdc_clock (cs : list (Signal * option Signal * float)) :
  for_each sdc_clock cs
  = if existsb zero_clock cs then Raise ZeroDivisionError else Ok (join (sdc_lines cs)).
Proof.
  induction cs as [|c cs IH]; [reflexivity|].
  cbn [for_each existsb]. rewrite sdc_clock_cases, IH.
  destruct (zero_clock c); [reflexivity|].
  destruct (existsb zero_clock cs); [reflexivity|].
  cbn [orb]. f_equal.
  rewrite <- join_app. f_equal.
  unfold sdc_lines. cbn [flat_map]. now rewrite app_nil_r.
Qed.

(** X1. Rendering the [.sdc] file raises [ZeroDivisionError] exactly when
    some clock constraint with a port has a frequency equal to zero; a zero
    frequency on a constraint without a port is never divided by. In every
    other case the file is the banner and the [create_clock] lines. *)
Theorem tpl_sdc_zero_division (ctx : RenderCtx) :
  tpl_sdc ctx
  = if existsb zero_clock (iter_clock_constraints ctx)
    then Raise ZeroDivisionError
    else Ok ("# " +:+ autogenerated ctx +:+ nl
             +:+ join (sdc_lines (iter_clock_constraints ctx))).
Proof.
  unfold tpl_sdc. rewrite for_each_sdc_clock.
  now destruct (existsb zero_clock (iter_clock_constraints ctx)).
Qed.
End TimingFile.

Section PinFile.
Context {rt : PyRuntime} {base : TemplatedPlatform}.

Lemma for_each_pcf_line (ps : list (string * string * odict)) :
  for_each pcf_line ps = Ok (join (map set_io_line ps)).
Proof.
  induction ps as [|[[port pin] attrs] ps IH]; [reflexivity|].
  cbn [for_each pcf_line map]. rewrite IH. reflexivity.
Qed.

Lemma set_io_line_attrs (ps qs : list (string * string * odict)) :
  map fst ps = map fst qs -> map set_io_line ps = map set_io_line qs.
Proof.
  revert qs. induction ps as [|p ps IH]; intros [|q qs]; try discriminate; [reflexivity|].
  cbn [map]. intros [= Hpq Hrest]. unfold set_io_line at 1 3. rewrite Hpq.
  f_equal. now apply IH.
Qed.

(** X2. The [.pcf] file always renders: the banner, then one
    [set_io <port> <pin>] line per port constraint, in order. The attributes
    of the port constraints play no part in it. *)
Theorem tpl_pcf_set_io (ctx1 ctx2 : RenderCtx) :
  autogenerated ctx1 = autogenerated ctx2 ->
  map fst (iter_port_constraints_bits ctx1) = map fst (iter_port_constraints_bits ctx2) ->
  tpl_pcf ctx1
  = Ok ("# " +:+ autogenerated ctx1 +:+ nl
        +:+ join (map set_io_line (iter_port_constraints_bits ctx1)))
  /\ tpl_pcf ctx2 = tpl_pcf ctx1.
Proof.
  intros Hbanner Hports. unfold tpl_pcf. rewrite !for_each_pcf_line.
  split; [reflexivity|].
  now rewrite Hbanner, (set_io_line_attrs _ _ Hports).
Qed.

Lemma append_inj_l (p a b : string) : p +:+ a = p +:+ b -> a = b.
Proof.
  induction p as [|c p IH]; [trivial|].
  change (String c (p +:+ a) = String c (p +:+ b) -> a = b).
  intros [= H]. now apply IH.
Qed.

(** X3. Whatever the design name, the five files the platform generates
    have five different names. *)
Theorem render_files_names_distinct (ctx : RenderCtx) :
  List.NoDup (map fst (render_files ctx)) /\ length (render_files ctx) = 5%nat.
Proof.
  split; [|reflexivity].
  unfold render_files, file_templates. cbn [map fst snd].
  repeat (apply List.NoDup_cons;
          [cbn [In]; intros Hin;
           repeat (destruct Hin as [Heq|Hin];
                   [apply append_inj_l in Heq; discriminate Heq|]);
           exact Hin|]).
  apply List.NoDup_nil.
Qed.

End PinFile.

Section CommandRendering.
Context {rt : PyRuntime} {base : TemplatedPlatform}.

(** X4. The six tool commands render on every platform. The conversion
    command renders only when the platform has both oscillator parameters:
    without [osc_freq] it is undefined-variable [osc_freq], with [osc_freq]
    but without [osc_div] it is undefined-variable [osc_div], and otherwise it
    passes the printed values after [--osc-freq] and [--fpga-clk-divider]. *)
Theorem render_command_defined (ctx : RenderCtx) :
  (forall tpl, In tpl (firstn 6 command_templates) -> is_ok (render_command ctx tpl) = true)
  /\ map (render_command ctx) command_templates !! 6%nat
     = Some match osc_freq (platform ctx), osc_div (platform ctx) with
            | None, _ => Raise (UndefinedError "osc_freq")
            | Some _, None => Raise (UndefinedError "osc_div")
            | Some freq, Some div =>
                Ok [ "python3"; "-m"; "quicklogic_fasm.bitstream_to_openocd";
                     name ctx +:+ ".bit"; name ctx +:+ ".openocd";
                     "--osc-freq"; str freq; "--fpga-clk-divider"; str div ]
            end.
Proof.
  split.
  - intros tpl Hin. cbn in Hin.
    repeat (destruct Hin as [<-|Hin]; [reflexivity|]). contradiction.
  - cbn [command_templates map lookup list_lookup].
    cbn [render_command render_word flag artifact for_each render_atom eval_cexpr].
    destruct (osc_freq (platform ctx)) as [freq|]; [|reflexivity].
    destruct (osc_div (platform ctx)) as [div|]; [|reflexivity].
    cbn [app]. now rewrite !append_empty_r.
Qed.

Lemma render_synth (ctx : RenderCtx) :
  map (render_command ctx) command_templates !! 0%nat
  = Some (Ok ([ invoke_tool "symbiflow_synth"; "-t"; name ctx; "-v" ]
              ++ iter_files ctx [".v"; ".sv"; ".vhd"; ".vhdl"]
              ++ [ name ctx +:+ ".v"; "-d"; device (platform ctx);
                   "-p"; name ctx +:+ ".pcf"; "-P"; package (platform ctx);
                   "-x"; name ctx +:+ ".xdc" ])).
Proof.
  cbn [command_templates map lookup list_lookup].
  cbn [render_command render_word flag artifact for_each render_atom eval_cexpr].
  cbn [app]. now rewrite !append_empty_r.
Qed.

Lemma render_pack (ctx : RenderCtx) :
  map (render_command ctx) command_templates !! 1%nat
  = Some (Ok [ invoke_tool "symbiflow_pack"; "-e"; name ctx +:+ ".eblif";
               "-d"; device (platform ctx); "-s"; name ctx +:+ ".sdc" ]).
Proof.
  cbn [command_templates map lookup list_lookup].
  cbn [render_command render_word flag artifact for_each render_atom eval_cexpr].
  cbn [app]. now rewrite !append_empty_r.
Qed.

(** X5. Every generated file except the debug netlist is an argument of
    one of the six tool commands, under the name it was generated with. *)
Theorem generated_files_are_consumed (ctx : RenderCtx) (fname : string) :
  In fname (map fst (render_files ctx)) ->
  fname <> name ctx +:+ ".debug.v" ->
  exists (i : nat) ws,
    (i < 6)%nat /\
    map (render_command ctx) command_templates !! i = Some (Ok ws) /\
    In fname ws.
Proof.
  intros Hin Hdebug. unfold render_files, file_templates in Hin. cbn [map fst snd In] in Hin.
  destruct Hin as [<-|[<-|[<-|[<-|[<-|[]]]]]].
  - exists 0%nat. eexists. split; [lia|]. split; [apply render_synth|].
    apply in_or_app. right. apply in_or_app. right. cbn. auto.
  - contradiction.
  - exists 0%nat. eexists. split; [lia|]. split; [apply render_synth|].
    apply in_or_app. right. apply in_or_app. right. cbn. auto 10.
  - exists 0%nat. eexists. split; [lia|]. split; [apply render_synth|].
    apply in_or_app. right. apply in_or_app. right. cbn. auto 15.
  - exists 1%nat. eexists. split; [lia|]. split; [apply render_pack|].
    cbn. auto 10.
Qed.

End CommandRendering.

Section ClockHooks.
Context {rt : PyRuntime} {base : TemplatedPlatform}.

Lemma od_get_set_ne (k k' v : string) (d : odict) :
  k' <> k -> od_get k' (od_set k v d) = od_get k' d.
Proof.
  intros Hne. induction d as [|[k0 v0] d IH]; cbn.
  - now rewrite (proj2 (String.eqb_neq k' k) Hne).
  - destruct (String.eqb k k0) eqn:E; cbn.
    + apply String.eqb_eq in E. subst k0.
      now rewrite (proj2 (String.eqb_neq k' k) Hne).
    + now rewrite IH.
Qed.

(** X6. [add_clock_constraint] fails exactly when the base class's does,
    with the same exception. When it succeeds it sets [keep] on the clock
    signal and changes nothing else: the signal's other attributes, every
    other signal and the clock constraints are as the base class left them. *)
Theorem add_clock_constraint_frame (clock : Signal) (freq : pyval) (st : pstate) :
  (forall e, add_clock_constraint clock freq st = Raise e <->
             super_add_clock_constraint clock freq st = Raise e)
  /\ (forall st',
        add_clock_constraint clock freq st = Ok (tt, st') ->
        exists st1,
          super_add_clock_constraint clock freq st = Ok (tt, st1) /\
          attrs_of st' clock = od_set "keep" "TRUE" (attrs_of st1 clock) /\
          (forall k, k <> "keep" ->
                     od_get k (attrs_of st' clock) = od_get k (attrs_of st1 clock)) /\
          (forall t, sig_id t <> sig_id clock -> attrs_of st' t = attrs_of st1 t) /\
          clocks st' = clocks st1 /\ requested st' = requested st1 /\
          next_id st' = next_id st1).
Proof.
  unfold add_clock_constraint, bind.
  destruct (super_add_clock_constraint clock freq st) as [[[] st1]|e0]; split.
  - intros e. unfold set_attr. split; discriminate.
  - intros st' Hset. exists st1. split; [reflexivity|].
    pose proof (attrs_of_set_attr _ _ _ _ _ Hset) as Hattrs.
    unfold set_attr in Hset. injection Hset as <-.
    repeat apply conj; try reflexivity.
    + exact Hattrs.
    + intros k Hk. rewrite Hattrs. now apply od_get_set_ne.
    + intros t Ht. unfold attrs_of. cbn [attrs_store].
      now rewrite lookup_insert_ne by congruence.
  - intros e. reflexivity.
  - discriminate.
Qed.

(** X7. On the internal oscillator [default_clk_constraint] validates
    nothing: a missing [osc_freq] is an [AttributeError] on [osc_freq] (looked
    up first), a missing [osc_div] one on [osc_div], and an [int] divider of 0
    is a [ZeroDivisionError]. *)
Theorem default_clk_constraint_errors (self : Platform) :
  default_clk self = Some "sys_clk0" ->
  (osc_freq self = None -> default_clk_constraint self = Raise (AttributeError "osc_freq"))
  /\ (osc_freq self <> None -> osc_div self = None ->
      default_clk_constraint self = Raise (AttributeError "osc_div"))
  /\ (forall freq div,
        osc_freq self = Some freq -> osc_div self = Some div ->
        isinstance_int freq = true -> isinstance_int div = true -> int_of div = 0 ->
        default_clk_constraint self = Raise ZeroDivisionError).
Proof.
  intros Hclk. unfold default_clk_constraint.
  rewrite bool_decide_eq_true_2 by exact Hclk.
  repeat apply conj.
  - intros ->. reflexivity.
  - intros Hf ->. destruct (osc_freq self); [reflexivity|contradiction].
  - intros freq div -> -> If Id Hz. cbn [getattr].
    unfold py_truediv, int_truediv. rewrite If, Id, Hz. reflexivity.
Qed.

End ClockHooks.

Section SynthesisEffects.
Context {rt : PyRuntime} {base : TemplatedPlatform}.

Lemma new_Signal_frame (n : string) (st : pstate) (s : Signal) (st' : pstate) :
  new_Signal n st = Ok (s, st') ->
  sig_id s = next_id st /\ sig_name s = n /\ next_id st' = S (next_id st)
  /\ clocks st' = clocks st /\ requested st' = requested st
  /\ forall t, sig_id t <> next_id st -> attrs_of st' t = attrs_of st t.
Proof.
  unfold new_Signal. intros [= <- <-]. cbn. repeat apply conj; try reflexivity.
  intros t Ht. unfold attrs_of. cbn. now rewrite lookup_insert_ne by congruence.
Qed.

(** X8. Synthesizing the domain on the internal oscillator requests no
    resource for the clock and constrains no clock: up to the request of the
    reset pin, the platform state differs only by the two fresh signals
    [clk_i] and [sys_clk0], and no existing signal's attributes change. *)
Theorem oscillator_synthesis_frame (self : Platform) (st : pstate) (m : Module)
    (st' : pstate) :
  default_clk self = Some "sys_clk0" ->
  create_missing_domain self "sync" st = Ok (Some m, st') ->
  exists st1 rst_i,
    reset_source self st1 rst_i st' /\
    (default_rst self = None -> st' = st1) /\
    next_id st1 = S (S (next_id st)) /\
    requested st1 = requested st /\
    clocks st1 = clocks st /\
    (forall t, (sig_id t < next_id st)%nat -> attrs_of st1 t = attrs_of st t) /\
    exists clk_i sys_clk0,
      submodules m = oscillator_chain sys_clk0 clk_i
                     ++ [(Some "reset_sync", ResetSynchronizer rst_i "sync")] /\
      sig_id clk_i = next_id st /\ sig_id sys_clk0 = S (next_id st) /\
      sig_name clk_i = "clk_i" /\ sig_name sys_clk0 = "sys_clk0".
Proof.
  intros Hclk Hrun.
  apply create_missing_domain_inv in Hrun
    as (_ & clk & chain & clk_i & st1 & rst_i & Hclk' & Hsrc & Hrst & ->).
  assert (clk = "sys_clk0") as -> by congruence.
  destruct Hsrc as [ci s0 sa sb _ _ _ Hci Hs0 | pin ci sa Hne _ _]; [|contradiction].
  apply new_Signal_frame in Hci as (Ici & Nci & Na & Ca & Ra & Fa).
  apply new_Signal_frame in Hs0 as (Is0 & Ns0 & Nb & Cb & Rb & Fb).
  exists sb, rst_i. repeat apply conj; try congruence.
  - intros Hnone. destruct Hrst as [rst pin i st2 Hr _ _|_]; [congruence|reflexivity].
  - intros t Ht. rewrite Fb, Fa; [reflexivity| |]; lia.
  - exists ci, s0. repeat apply conj; try congruence. reflexivity.
Qed.

(** X9. With an external default clock, [create_missing_domain] passes on
    the exception of a failed clock request, raises [AttributeError] on [i]
    for a clock pin without an input, and does the same for the reset pin,
    which is requested after the clock pin. *)
Theorem pin_clock_errors (self : Platform) (clk : string) (st : pstate) :
  default_clk self = Some clk ->
  clk <> "sys_clk0" ->
  (forall e, request clk st = Raise e -> create_missing_domain self "sync" st = Raise e)
  /\ (forall pin st1,
        request clk st = Ok (pin, st1) -> pin_i pin = None ->
        create_missing_domain self "sync" st = Raise (AttributeError "i"))
  /\ (forall pin st1 clk_i rst,
        request clk st = Ok (pin, st1) -> pin_i pin = Some clk_i ->
        default_rst self = Some rst ->
        (forall e, request rst st1 = Raise e ->
                   create_missing_domain self "sync" st = Raise e)
        /\ (forall rpin st2,
              request rst st1 = Ok (rpin, st2) -> pin_i rpin = None ->
              create_missing_domain self "sync" st = Raise (AttributeError "i"))).
Proof.
  intros Hclk Hne. apply String.eqb_neq in Hne.
  unfold create_missing_domain. rewrite Hclk, Hne. cbn [String.eqb Ascii.eqb Bool.eqb].
  split; [|split].
  - intros e He. unfold bind at 1 2. now rewrite He.
  - intros pin st1 Hreq Hi. unfold bind at 1 2. rewrite Hreq.
    unfold bind at 1, get_i at 1. now rewrite Hi.
  - intros pin st1 clk_i rst Hreq Hi Hrst.
    assert (Hclock : forall k : Module * Signal -> M (option Module),
              bind (pin <- request clk ;; clk_i <- get_i pin ;; ret (empty_Module, clk_i)) k st
              = k (empty_Module, clk_i) st1).
    { intros k. unfold bind at 1 2. rewrite Hreq.
      unfold bind at 1. now rewrite (proj2 (get_i_Ok pin st1 clk_i st1) (conj Hi eq_refl)). }
    rewrite Hclock, Hrst. cbn [fst snd]. split.
    + intros e He. unfold bind at 1 2. now rewrite He.
    + intros rpin st2 Hreq' Hi'. unfold bind at 1 2. rewrite Hreq'.
      unfold bind, get_i. now rewrite Hi'.
Qed.

Lemma valid_int_param_PyInt (lo hi : Z) (o : option pyval) :
  2 <= lo ->
  valid_int_param lo hi o = true ->
  exists z, o = Some (PyInt z) /\ lo <= z <= hi.
Proof.
  intros Hlo. destruct o as [[z|b|f|r s]|]; cbn; try discriminate.
  - intros Hv. apply andb_true_iff in Hv as [Hl Hh].
    exists z. split; [reflexivity|]. lia.
  - intros Hv. apply andb_true_iff in Hv as [Hl _]. destruct b; cbn in Hl; lia.
Qed.

(** X10. A platform on which [create_missing_domain] has synthesized the
    domain from the internal oscillator renders all seven commands; the
    conversion command carries the decimal digits of an [osc_freq] in
    2100000..80000000 and of an [osc_div] in 2..512. *)
Theorem synthesized_oscillator_commands (self : Platform) (st : pstate) (m : Module)
    (st' : pstate) (ctx : RenderCtx) :
  default_clk self = Some "sys_clk0" ->
  create_missing_domain self "sync" st = Ok (Some m, st') ->
  platform ctx = self ->
  (forall tpl, In tpl command_templates -> is_ok (render_command ctx tpl) = true)
  /\ exists freq div,
       2100000 <= freq <= 80000000 /\ 2 <= div <= 512 /\
       map (render_command ctx) command_templates !! 6%nat
       = Some (Ok [ "python3"; "-m"; "quicklogic_fasm.bitstream_to_openocd";
                    name ctx +:+ ".bit"; name ctx +:+ ".openocd";
                    "--osc-freq"; Z_repr freq; "--fpga-clk-divider"; Z_repr div ]).
Proof.
  intros Hclk Hrun <-.
  apply create_missing_domain_inv in Hrun
    as (_ & clk & chain & clk_i & st1 & rst_i & Hclk' & Hsrc & _ & _).
  assert (clk = "sys_clk0") as -> by congruence.
  destruct Hsrc as [ci s0 sa sb _ Vdiv Vfreq _ _ | pin ci sa Hne _ _]; [|contradiction].
  apply valid_int_param_PyInt in Vdiv as (div & Hdiv & Rdiv); [|lia].
  apply valid_int_param_PyInt in Vfreq as (freq & Hfreq & Rfreq); [|lia].
  pose proof (render_command_defined ctx) as [Hsix Hseven].
  rewrite Hfreq, Hdiv in Hseven. cbn [str repr] in Hseven.
  split.
  - intros tpl Hin.
    change command_templates
      with (firstn 6 command_templates ++ skipn 6 command_templates) in Hin.
    apply in_app_or in Hin as [Hin|Hin]; [now apply Hsix|].
    cbn [skipn command_templates In] in Hin. destruct Hin as [<-|[]].
    match goal with
    | |- is_ok ?r = true =>
        assert (E : Some r = Some (Ok [ "python3"; "-m"; "quicklogic_fasm.bitstream_to_openocd";
                                       name ctx +:+ ".bit"; name ctx +:+ ".openocd";
                                       "--osc-freq"; Z_repr freq;
                                       "--fpga-clk-divider"; Z_repr div ]))
          by exact Hseven
    end.
    apply (inj Some) in E. rewrite E. reflexivity.
  - exists freq, div. auto.
Qed.

End SynthesisEffects.

Section MoreExamples.
Import Demo.
Local Existing Instances demo_runtime demo_base.

Lemma tpl_pcf_set_io_witness :
  tpl_pcf (demo_ctx quickfeather)
  = Ok ("# Automatically generated by nMigen. Do not edit." +:+ nl
        +:+ "set_io clk12 63" +:+ nl +:+ "set_io led 38" +:+ nl)
  /\ tpl_pcf (with_ports (demo_ctx quickfeather) [("clk12", "63", []); ("led", "38", [])])
     = tpl_pcf (demo_ctx quickfeather).
Proof.
  exact (tpl_pcf_set_io (demo_ctx quickfeather)
           (with_ports (demo_ctx quickfeather) [("clk12", "63", []); ("led", "38", [])])
           eq_refl eq_refl).
Defined.

Lemma generated_files_are_consumed_witness :
  exists (i : nat) ws,
    (i < 6)%nat
    /\ map (render_command (demo_ctx quickfeather)) command_templates !! i = Some (Ok ws)
    /\ In "top.sdc" ws.
Proof.
  refine (generated_files_are_consumed (demo_ctx quickfeather) "top.sdc" _ _).
  - cbn. auto 10.
  - discriminate.
Defined.

Lemma default_clk_constraint_errors_witness :
  default_clk_constraint (with_osc None None quickfeather) = Raise (AttributeError "osc_freq")
  /\ default_clk_constraint (with_osc (Some (PyInt 60000000)) None quickfeather)
     = Raise (AttributeError "osc_div")
  /\ default_clk_constraint (osc 60000000 0) = Raise ZeroDivisionError.
Proof.
  repeat apply conj.
  - exact (proj1 (default_clk_constraint_errors (with_osc None None quickfeather) eq_refl)
             eq_refl).
  - refine (proj1 (proj2 (default_clk_constraint_errors
                            (with_osc (Some (PyInt 60000000)) None quickfeather) eq_refl))
              _ eq_refl).
    discriminate.
  - exact (proj2 (proj2 (default_clk_constraint_errors (osc 60000000 0) eq_refl))
             (PyInt 60000000) (PyInt 0) eq_refl eq_refl eq_refl eq_refl eq_refl).
Defined.

Lemma oscillator_synthesis_frame_witness :
  exists m st',
    create_missing_domain quickfeather "sync" init_state = Ok (Some m, st')
    /\ next_id st' = 2%nat /\ requested st' = [] /\ clocks st' = [].
Proof.
  eexists _, _. split; [lazy; reflexivity|].
  edestruct (oscillator_synthesis_frame quickfeather init_state) as
    (st1 & rst_i & _ & Hsame & Hnext & Hreq & Hclocks & _); [reflexivity|lazy; reflexivity|].
  rewrite (Hsame eq_refl). auto.
Defined.

Lemma pin_clock_errors_witness :
  create_missing_domain (clocked_from (Some "osc") None) "sync" init_state
  = Raise (ResourceError "resource does not exist")
  /\ create_missing_domain (clocked_from (Some "led") None) "sync" init_state
     = Raise (AttributeError "i")
  /\ create_missing_domain (clocked_from (Some "clk12") (Some "clk12")) "sync" init_state
     = Raise (ResourceError "resource has already been requested")
  /\ create_missing_domain (clocked_from (Some "clk12") (Some "led")) "sync" init_state
     = Raise (AttributeError "i").
Proof.
  repeat apply conj.
  - refine (proj1 (pin_clock_errors (clocked_from (Some "osc") None) "osc" init_state
                     eq_refl _) _ eq_refl).
    discriminate.
  - refine (proj1 (proj2 (pin_clock_errors (clocked_from (Some "led") None) "led" init_state
                            eq_refl _)) _ _ eq_refl eq_refl).
    discriminate.
  - refine (proj1 (proj2 (proj2 (pin_clock_errors
                                   (clocked_from (Some "clk12") (Some "clk12")) "clk12"
                                   init_state eq_refl _))
                     _ _ _ "clk12" _ _ eq_refl) _ _).
    + discriminate.
    + lazy; reflexivity.
    + reflexivity.
    + lazy; reflexivity.
  - refine (proj2 (proj2 (proj2 (pin_clock_errors
                                   (clocked_from (Some "clk12") (Some "led")) "clk12"
                                   init_state eq_refl _))
                     _ _ _ "led" _ _ eq_refl) _ _ _ _).
    + discriminate.
    + lazy; reflexivity.
    + reflexivity.
    + lazy; reflexivity.
    + reflexivity.
Defined.

Lemma synthesized_oscillator_commands_witness :
  forallb (fun tpl => is_ok (render_command (demo_ctx quickfeather) tpl)) command_templates
  = true.
Proof.
  apply forallb_forall.
  refine (proj1 (synthesized_oscillator_commands quickfeather init_state _ _
                   (demo_ctx quickfeather) eq_refl _ eq_refl)).
  lazy; reflexivity.
Defined.

End MoreExamples.
